(** * Reddit-QnA-to-Notion MCP server: a shallow embedding and its properties

    The development follows [reddit_qa_to_notion_mcp.py]: the bearer token
    verifier, the three Reddit fetch tools and the Notion page writer.
    Python values that leave a tool (dicts, lists, strings, ints, bools) are
    kept as a small JSON-like [value] type, exceptions are explicit results,
    and the one tool that writes to the network threads the log of requests
    it issued. Calls to the logger have no bearing on what a tool returns
    and are left out. *)

From Stdlib Require Import String Ascii List ZArith Lia Bool DecimalString.
From Equations Require Import Equations.
Import ListNotations.

Set Warnings "-register-all".

Local Open Scope string_scope.
Local Open Scope Z_scope.

(* ===================================================================== *)
(** * Python values and builtins used by the server *)
(* ===================================================================== *)

Module Py.

(** A character of a model string stands for one code point of the Python
    [str]; the server only concatenates, slices, measures and compares
    strings, all of which are independent of the alphabet. *)

(** JSON-shaped values: what the tools return and what is posted. *)
Inductive value : Type :=
| VNone
| VBool (b : bool)
| VInt (z : Z)
| VStr (s : string)
| VList (l : list value)
| VDict (d : list (string * value)).

(** A [dict] with string keys, in insertion order. *)
Definition dict := list (string * value).

(** [d.get(k)] / [d[k]] lookup. *)
Fixpoint dict_get {V : Type} (k : string) (d : list (string * V)) : option V :=
  match d with
  | [] => None
  | (k', v) :: rest => if String.eqb k k' then Some v else dict_get k rest
  end.

(** [d[k] = v]: replaces the value of an existing key in place, appends a
    new key at the end. *)
Fixpoint dict_set {V : Type} (k : string) (v : V) (d : list (string * V))
  : list (string * V) :=
  match d with
  | [] => [(k, v)]
  | (k', v') :: rest =>
      if String.eqb k k' then (k', v) :: rest else (k', v') :: dict_set k v rest
  end.

(** [d.update(other)]. *)
Definition dict_update {V : Type} (d other : list (string * V))
  : list (string * V) :=
  fold_left (fun acc kv => dict_set (fst kv) (snd kv) acc) other d.

(** [d.get(k, default)]. *)
Definition dict_get_default {V : Type} (k : string) (default : V)
           (d : list (string * V)) : V :=
  match dict_get k d with
  | Some v => v
  | None => default
  end.

(** [v[k]] on a value that is a dict. *)
Definition get_item (k : string) (v : value) : option value :=
  match v with
  | VDict d => dict_get k d
  | _ => None
  end.

(** Truth value of an [os.getenv] result: [None] and the empty string are
    both false. *)
Definition truthy (x : option string) : bool :=
  match x with
  | None => false
  | Some s => negb (String.eqb s "")
  end.

(** [a or b] on [os.getenv] results. *)
Definition py_or (a b : option string) : option string :=
  if truthy a then a else b.

(** [str(n)] for an [int]. *)
Definition str_of_int (n : Z) : string :=
  NilZero.string_of_int (Z.to_int n).

(** An [os.getenv] result interpolated in an f-string. *)
Definition fmt_opt (x : option string) : string :=
  match x with
  | Some s => s
  | None => "None"
  end.

(** An [os.getenv] result stored in a JSON body. *)
Definition value_of_opt (x : option string) : value :=
  match x with
  | Some s => VStr s
  | None => VNone
  end.

(** [len(s)]. *)
Definition len (s : string) : Z := Z.of_nat (String.length s).

(** [xs[:n]] on a list: a negative [n] counts from the end. *)
Definition slice_to {A : Type} (n : Z) (xs : list A) : list A :=
  if 0 <=? n then firstn (Z.to_nat n) xs
  else firstn (Z.to_nat (Z.of_nat (length xs) + n)) xs.

(** [s[:n]] on a string. *)
Definition str_slice_to (n : Z) (s : string) : string :=
  if 0 <=? n then substring 0 (Z.to_nat n) s
  else substring 0 (Z.to_nat (len s + n)) s.

(** [needle in hay]. *)
Fixpoint contains (needle hay : string) : bool :=
  if prefix needle hay then true
  else match hay with
       | EmptyString => false
       | String _ rest => contains needle rest
       end.

(** The HTTP response object of [requests]. *)
Record Response : Type := mkResponse {
  status_code : Z;
  headers : list (string * string);
  text : string
}.

(** The attribute [response] of an exception: the instance has no such
    attribute ([hasattr(e, 'response')] is false), or it has one that is
    [None], or one that holds a response object. *)
Inductive ResponseAttr : Type :=
| NoAttr
| AttrNone
| AttrResponse (response : Response).

(** An instance of [Exception], as the handlers see it: [type(e).__name__],
    [str(e)] and the attribute [response]. *)
Record PyExc : Type := mkExc {
  exc_type_name : string;
  exc_str : string;
  exc_response : ResponseAttr
}.

(** What reading an attribute of [None] raises. *)
Definition none_has_no_attribute (name : string) : PyExc :=
  mkExc "AttributeError"
        ("'NoneType' object has no attribute '" ++ name ++ "'") NoAttr.

(** Outcome of evaluating Python code: a value, or a raised exception. *)
Inductive Result (A : Type) : Type :=
| Ok (a : A)
| Raise (e : PyExc).
Arguments Ok {A} a.
Arguments Raise {A} e.

Definition bind {A B : Type} (m : Result A) (k : A -> Result B) : Result B :=
  match m with
  | Ok a => k a
  | Raise e => Raise e
  end.

(** [try: m  except Exception as e: h e]. *)
Definition try_except {A : Type} (m : Result A) (h : PyExc -> Result A)
  : Result A :=
  match m with
  | Ok a => Ok a
  | Raise e => h e
  end.

End Py.

Import Py.

Declare Scope py_scope.
Delimit Scope py_scope with py.
Notation "x <- m ;; k" := (bind m (fun x => k))
  (at level 61, m at next level, right associativity) : py_scope.

(* ===================================================================== *)
(** * Bearer token verification *)
(* ===================================================================== *)

Module Auth.

Record AccessToken : Type := mkAccessToken {
  token : string;
  client_id : string;
  scopes : list string;
  expires_at : option Z
}.

(** [SimpleTokenVerifier]: [valid_token] is [os.getenv("MCP_API_KEY")]. *)
Record SimpleTokenVerifier : Type := mkVerifier {
  valid_token : option string
}.

(** [token != self.valid_token]. *)
Definition token_differs (tok : string) (valid : option string) : bool :=
  match valid with
  | Some s => negb (String.eqb tok s)
  | None => true
  end.

Definition verify_token (self : SimpleTokenVerifier) (tok : string)
  : option AccessToken :=
  if negb (truthy (valid_token self)) || token_differs tok (valid_token self)
  then None
  else Some (mkAccessToken tok "single_user"
                           ["reddit:read"; "notion:write"] None).

(** [SimpleTokenVerifier.__init__]: the key is read from the environment,
    and a warning is logged when it is not set. The constructor is given
    with the warnings it logs. *)
Definition SimpleTokenVerifier_init (getenv : string -> option string)
  : SimpleTokenVerifier * list string :=
  let valid_token := getenv "MCP_API_KEY" in
  (mkVerifier valid_token,
   if negb (truthy valid_token)
   then ["⚠️  MCP_API_KEY not set - authentication will fail"]
   else []).

(** [AuthSettings(required_scopes=[...])] of the server object [mcp]. *)
Definition required_scopes : list string := ["reddit:read"; "notion:write"].

End Auth.


(* ===================================================================== *)
(** * The Reddit API client (PRAW), as the tools use it *)
(* ===================================================================== *)

Module Praw.

(** A node of a post's comment tree: a comment with its replies, or a
    "load more comments" placeholder. *)
Inductive CommentNode : Type :=
| Comment (body : string) (replies : list CommentNode)
| MoreComments (count : Z).

Definition is_comment (c : CommentNode) : bool :=
  match c with
  | Comment _ _ => true
  | MoreComments _ => false
  end.


(** [comment.body]: a placeholder has no such attribute. *)
Definition body_of (c : CommentNode) : Result string :=
  match c with
  | Comment b _ => Ok b
  | MoreComments _ =>
      Raise (mkExc "AttributeError"
                   "'MoreComments' object has no attribute 'body'" NoAttr)
  end.

(** Number of nodes of a tree and of a forest; the measure under which the
    flattening queue shrinks. *)
Fixpoint node_size (c : CommentNode) : nat :=
  match c with
  | Comment _ rs => S (list_sum (map node_size rs))
  | MoreComments _ => 1%nat
  end.

Definition forest_size (f : list CommentNode) : nat :=
  list_sum (map node_size f).

Lemma forest_size_app (f g : list CommentNode) :
  forest_size (f ++ g) = (forest_size f + forest_size g)%nat.
Proof. unfold forest_size. rewrite map_app, list_sum_app. reflexivity. Qed.

(** A comment with the placeholders removed from its replies, recursively. *)
Fixpoint prune (c : CommentNode) : CommentNode :=
  match c with
  | Comment b rs => Comment b (filter is_comment (map prune rs))
  | MoreComments n => MoreComments n
  end.

(** Modelled from the spec: [CommentForest.replace_more(limit=0)] belongs
    to the PRAW library, which is not part of the repository. Spec 4.1:
    "discard any load-more placeholder nodes (treat them as contributing
    zero comments rather than recursing into them)". With [limit=0] no
    placeholder is expanded; each one is removed from the list that holds
    it, at every depth, and the remaining comments keep their order. *)
Definition replace_more (forest : list CommentNode) : list CommentNode :=
  filter is_comment (map prune forest).

(** Modelled from the spec: [CommentForest.list()] belongs to the PRAW
    library, which is not part of the repository. Spec 4.1: "flatten the
    remaining tree into an ordered sequence". PRAW flattens with a queue:
    the front comment is emitted and its replies join the back of the
    queue, so the whole tree is listed level by level. ([list] names the
    list type here, hence the name of the function.) *)
Equations? list_queue (queue : list CommentNode) : list CommentNode
  by wf (forest_size queue) lt :=
  list_queue [] := [];
  list_queue (Comment b rs :: q) := Comment b rs :: list_queue (q ++ rs);
  list_queue (MoreComments n :: q) := MoreComments n :: list_queue q.
Proof.
  rewrite forest_size_app. unfold forest_size. simpl. lia.
Qed.

(** A submission as a listing yields it. Reading an attribute may raise;
    [comments] is the attribute whose first read fetches the comment
    tree. [created_utc] holds the integer that the [int] field of
    [RedditPost] stores for the upstream number. *)
Record Submission : Type := mkSubmission {
  title : Result string;
  selftext : Result string;
  url : Result string;
  created_utc : Result Z;
  num_comments : Result Z;
  permalink : Result string;
  comments : Result (list CommentNode)
}.

(** What the upstream has to offer for a listing request, read lazily: it
    ends, yields a post and goes on, or fails. *)
Inductive Listing : Type :=
| LEnd
| LYield (post : Submission) (rest : Listing)
| LRaise (e : PyExc).

(** The long-lived client object [reddit]. The two calls that open a
    listing are evaluated before the loop starts: each returns the listing
    to iterate, or raises. *)
Record Reddit : Type := mkReddit {
  read_only : bool;
  config_client_id : option string;
  (** [reddit.subreddit(name).top(time_filter=tf, ...)] *)
  subreddit_top : string -> string -> Result Listing;
  (** [reddit.subreddit(name).search(query, sort=sort, ...)] *)
  subreddit_search : string -> string -> string -> Result Listing
}.

End Praw.

(* ===================================================================== *)
(** * The Reddit fetch tools *)
(* ===================================================================== *)

Module Fetch.

Import Praw.

(** The pydantic model [RedditPost]. *)
Record RedditPost : Type := mkRedditPost {
  title : string;
  body : string;
  url : string;
  created_utc : Z;
  num_comments : Z;
  permalink : string;
  comments : list string
}.

(** [post_data.model_dump()]. *)
Definition model_dump (p : RedditPost) : value :=
  VDict [("title", VStr (title p));
         ("body", VStr (body p));
         ("url", VStr (url p));
         ("created_utc", VInt (created_utc p));
         ("num_comments", VInt (num_comments p));
         ("permalink", VStr (permalink p));
         ("comments", VList (map VStr (comments p)))].

(** [for comment in ...: post_data.comments.append(comment.body)], on the
    list [post_data.comments] built so far. *)
Fixpoint append_bodies (cs : list CommentNode) (acc : list string)
  : Result (list string) :=
  match cs with
  | [] => Ok acc
  | comment :: rest =>
      (b <- body_of comment ;; append_bodies rest (acc ++ [b]))%py
  end.

(** The body of the loop over posts; the three tools repeat it verbatim. *)
Definition collect_post (comment_limit : Z) (post : Submission)
  : Result value :=
  (t <- Praw.title post ;;
   b <- Praw.selftext post ;;
   u <- Praw.url post ;;
   c <- Praw.created_utc post ;;
   n <- Praw.num_comments post ;;
   p <- Praw.permalink post ;;
   let post_data := mkRedditPost t b u c n ("https://reddit.com" ++ p) [] in
   forest <- Praw.comments post ;;
   let forest := replace_more forest in
   cs <- append_bodies (slice_to comment_limit (list_queue forest))
                       (comments post_data) ;;
   Ok (model_dump (mkRedditPost (title post_data) (body post_data)
                                (url post_data) (created_utc post_data)
                                (num_comments post_data)
                                (permalink post_data) cs)))%py.

(** [for post in <listing>(..., limit=limit): ...; posts.append(...)].

    Modelled from the spec: the listing generator belongs to the PRAW
    library, which is not part of the repository. Spec 4.1: "for each post
    in iteration order up to [limit]". The generator counts what it has
    yielded and stops once the count reaches [limit], before asking the
    upstream for anything more. *)
Fixpoint for_posts (limit yielded : Z) (listing : Listing)
         (comment_limit : Z) (posts : list value) : Result (list value) :=
  if limit <=? yielded then Ok posts
  else match listing with
       | LEnd => Ok posts
       | LRaise e => Raise e
       | LYield post rest =>
           (d <- collect_post comment_limit post ;;
            for_posts limit (yielded + 1) rest comment_limit (posts ++ [d]))%py
       end.

(** [if hasattr(e, 'response'): error_details.update({...})]; the three
    handlers repeat it verbatim. The attribute is read without a test for
    [None]: [e.response.status_code] is the first read. *)
Definition http_details (e : PyExc) (error_details : dict) : Result dict :=
  match exc_response e with
  | NoAttr => Ok error_details
  | AttrNone => Raise (none_has_no_attribute "status_code")
  | AttrResponse response =>
      Ok (dict_update error_details
            [("http_status", VInt (status_code response));
             ("response_headers",
              VDict (map (fun kv => (fst kv, VStr (snd kv)))
                         (headers response)));
             ("response_body", VStr (str_slice_to 500 (text response)))])
  end.

Definition debug_info : string :=
  "Check error_details for Reddit API response information".

Section Tools.

Variable reddit : Reddit.

(** [bool(reddit.config.client_id)]. *)
Definition client_id_exists : bool := truthy (config_client_id reddit).

(** ** get_top_subreddit_posts *)

Definition get_top_subreddit_posts_try
           (subreddits : string) (limit comment_limit : Z)
           (time_filter : string) : Result (list value) :=
  (listing <- subreddit_top reddit subreddits time_filter ;;
   for_posts limit 0 listing comment_limit [])%py.

Definition get_top_subreddit_posts_except
           (subreddits time_filter : string) (e : PyExc)
  : Result (list value) :=
  let error_details :=
    [("error", VStr (exc_str e));
     ("error_type", VStr (exc_type_name e));
     ("subreddits", VStr subreddits);
     ("time_filter", VStr time_filter);
     ("reddit_read_only", VBool (read_only reddit));
     ("client_id_exists", VBool client_id_exists)] in
  (error_details <- http_details e error_details ;;
   Ok [VDict [("error_details", VDict error_details);
              ("message",
               VStr ("Top posts retrieval failed for r/" ++ subreddits
                     ++ ": " ++ exc_str e));
              ("debug_info", VStr debug_info)]])%py.

Definition get_top_subreddit_posts
           (subreddits : string) (limit comment_limit : Z)
           (time_filter : string) : Result (list value) :=
  try_except
    (get_top_subreddit_posts_try subreddits limit comment_limit time_filter)
    (get_top_subreddit_posts_except subreddits time_filter).

(** ** search_posts *)

Definition search_posts_try
           (subreddits query : string) (limit comment_limit : Z)
           (sort : string) : Result (list value) :=
  (listing <- subreddit_search reddit subreddits query sort ;;
   for_posts limit 0 listing comment_limit [])%py.

Definition search_posts_except (subreddits : string) (e : PyExc)
  : Result (list value) :=
  let error_details :=
    [("error", VStr (exc_str e));
     ("error_type", VStr (exc_type_name e));
     ("subreddits", VStr subreddits);
     ("reddit_read_only", VBool (read_only reddit));
     ("client_id_exists", VBool client_id_exists)] in
  (error_details <- http_details e error_details ;;
   Ok [VDict [("error_details", VDict error_details);
              ("message",
               VStr ("Subreddit search failed for r/" ++ subreddits
                     ++ ": " ++ exc_str e));
              ("debug_info", VStr debug_info)]])%py.

Definition search_posts
           (subreddits query : string) (limit comment_limit : Z)
           (sort : string) : Result (list value) :=
  try_except
    (search_posts_try subreddits query limit comment_limit sort)
    (search_posts_except subreddits).

(** ** search_reddit *)

Definition search_reddit_try
           (query : string) (limit comment_limit : Z) (sort : string)
  : Result (list value) :=
  (listing <- subreddit_search reddit "all" query sort ;;
   for_posts limit 0 listing comment_limit [])%py.

Definition search_reddit_except (e : PyExc) : Result (list value) :=
  let error_details :=
    [("error", VStr (exc_str e));
     ("error_type", VStr (exc_type_name e));
     ("reddit_read_only", VBool (read_only reddit));
     ("client_id_exists", VBool client_id_exists)] in
  (error_details <- http_details e error_details ;;
   Ok [VDict [("error_details", VDict error_details);
              ("message", VStr ("Reddit search failed: " ++ exc_str e));
              ("debug_info", VStr debug_info)]])%py.

Definition search_reddit
           (query : string) (limit comment_limit : Z) (sort : string)
  : Result (list value) :=
  try_except
    (search_reddit_try query limit comment_limit sort)
    (search_reddit_except).

(** ** The three tools behind one invocation type *)

Inductive Call : Type :=
| CallTop (subreddits : string) (limit comment_limit : Z)
          (time_filter : string)
| CallSearchPosts (subreddits query : string) (limit comment_limit : Z)
                  (sort : string)
| CallSearchReddit (query : string) (limit comment_limit : Z)
                   (sort : string).

Definition invoke (c : Call) : Result (list value) :=
  match c with
  | CallTop s l cl tf => get_top_subreddit_posts s l cl tf
  | CallSearchPosts s q l cl so => search_posts s q l cl so
  | CallSearchReddit q l cl so => search_reddit q l cl so
  end.

(** The [try] block of the invoked tool. *)
Definition invoke_try (c : Call) : Result (list value) :=
  match c with
  | CallTop s l cl tf => get_top_subreddit_posts_try s l cl tf
  | CallSearchPosts s q l cl so => search_posts_try s q l cl so
  | CallSearchReddit q l cl so => search_reddit_try q l cl so
  end.

(** The [except] block of the invoked tool. *)
Definition invoke_except (c : Call) (e : PyExc) : Result (list value) :=
  match c with
  | CallTop s _ _ tf => get_top_subreddit_posts_except s tf e
  | CallSearchPosts s _ _ _ _ => search_posts_except s e
  | CallSearchReddit _ _ _ _ => search_reddit_except e
  end.

Definition call_limit (c : Call) : Z :=
  match c with
  | CallTop _ l _ _ | CallSearchPosts _ _ l _ _ | CallSearchReddit _ l _ _ => l
  end.

Definition call_comment_limit (c : Call) : Z :=
  match c with
  | CallTop _ _ cl _ | CallSearchPosts _ _ _ cl _
  | CallSearchReddit _ _ cl _ => cl
  end.

(** The call that opens the listing of the invoked tool. *)
Definition call_listing (c : Call) : Result Listing :=
  match c with
  | CallTop s _ _ tf => subreddit_top reddit s tf
  | CallSearchPosts s q _ _ so => subreddit_search reddit s q so
  | CallSearchReddit q _ _ so => subreddit_search reddit "all" q so
  end.

End Tools.

End Fetch.

(* ===================================================================== *)
(** * The Notion page writer *)
(* ===================================================================== *)

Module Notion.

(** The arguments of [requests.post(url, json=..., headers=...)]. *)
Record Request : Type := mkRequest {
  req_url : string;
  req_json : value;
  req_headers : list (string * string)
}.

(** What the tool reads from outside: the process environment
    ([os.getenv]), the clock ([datetime.now().isoformat()]) and the answer
    of the network to a request ([requests.post] returns or raises). *)
Record World : Type := mkWorld {
  getenv : string -> option string;
  now_isoformat : string;
  network : Request -> Result Response
}.

(** Code that may issue requests: it runs from the log of the requests
    made so far to an outcome and the extended log. *)
Definition IO (A : Type) : Type := list Request -> Result A * list Request.

Definition io_ret {A : Type} (a : A) : IO A := fun log => (Ok a, log).

Definition io_bind {A B : Type} (m : IO A) (k : A -> IO B) : IO B :=
  fun log =>
    match m log with
    | (Ok a, log') => k a log'
    | (Raise e, log') => (Raise e, log')
    end.

(** [try: m  except Exception as e: h e]. *)
Definition io_try {A : Type} (m : IO A) (h : PyExc -> IO A) : IO A :=
  fun log =>
    match m log with
    | (Ok a, log') => (Ok a, log')
    | (Raise e, log') => h e log'
    end.

(** [requests.post]: the request goes out, then the call returns the
    response or raises. *)
Definition requests_post (w : World) (req : Request) : IO Response :=
  fun log => (network w req, (log ++ [req])%list).

Definition newline : string := String (ascii_of_nat 10) EmptyString.

(** [for i, source in enumerate(reddit_sources, 1): sources_text += ...],
    entered with the counter at [i] and the text built so far. *)
Fixpoint sources_loop (i : Z) (reddit_sources : list (list (string * string)))
         (sources_text : string) : string :=
  match reddit_sources with
  | [] => sources_text
  | source :: rest =>
      sources_loop (i + 1) rest
        (sources_text ++
         (str_of_int i ++ ". [" ++ dict_get_default "title" "Untitled" source
          ++ "](" ++ dict_get_default "url" "#" source ++ ")" ++ newline))
  end.

Definition url_endpoint : string := "https://api.notion.com/v1/pages".

Definition rich_text (content : string) : value :=
  VList [VDict [("text", VDict [("content", VStr content)])]].

Definition page_data (database_id : option string)
           (question answer search_query sources_text now : string) : value :=
  VDict
    [("parent", VDict [("database_id", value_of_opt database_id)]);
     ("properties",
      VDict
        [("Question", VDict [("title", rich_text question)]);
         ("Answer", VDict [("rich_text", rich_text answer)]);
         ("Search Query", VDict [("rich_text", rich_text search_query)]);
         ("Reddit Sources", VDict [("rich_text", rich_text sources_text)]);
         ("Created", VDict [("date", VDict [("start", VStr now)])])])].

Definition request_headers (api_token : option string)
  : list (string * string) :=
  [("Authorization", "Bearer " ++ fmt_opt api_token);
   ("Content-Type", "application/json");
   ("Notion-Version", "2022-06-28")].

Section Tool.

Variable w : World.

Definition database_id : option string :=
  py_or (getenv w "NOTION_QA_DATABASE_ID") (getenv w "NOTION_DATABASE_ID").

Definition api_token : option string := getenv w "NOTION_API_TOKEN".

Definition save_reddit_qa_to_notion_try
           (question answer search_query : string)
           (reddit_sources : list (list (string * string))) : IO value :=
  if negb (truthy database_id) then
    io_ret (VDict [("error",
      VStr "NOTION_QA_DATABASE_ID or NOTION_DATABASE_ID environment variable not set")])
  else if negb (truthy api_token) then
    io_ret (VDict [("error",
      VStr "NOTION_API_TOKEN environment variable not set")])
  else
    let sources_text := sources_loop 1 reddit_sources "" in
    let headers := request_headers api_token in
    let page_data :=
      page_data database_id question answer search_query sources_text
                (now_isoformat w) in
    io_bind (requests_post w (mkRequest url_endpoint page_data headers))
      (fun response =>
         if status_code response =? 200 then
           io_ret (VDict
             [("success", VBool true);
              ("message", VStr "Successfully saved Q&A session to Notion");
              ("question",
               VStr (if 50 <? len question
                     then str_slice_to 50 question ++ "..."
                     else question))])
         else
           io_ret (VDict
             [("error",
               VStr ("Failed to save to Notion: "
                     ++ str_of_int (status_code response)
                     ++ " - " ++ text response))])).

Definition save_reddit_qa_to_notion_except (e : PyExc) : IO value :=
  io_ret (VDict [("error",
                  VStr ("Error saving Q&A to Notion: " ++ exc_str e))]).

(** The tool, run from an empty log: its outcome and the requests it
    issued. *)
Definition save_reddit_qa_to_notion
           (question answer search_query : string)
           (reddit_sources : list (list (string * string)))
  : Result value * list Request :=
  io_try
    (save_reddit_qa_to_notion_try question answer search_query
                                  reddit_sources)
    save_reddit_qa_to_notion_except [].

End Tool.

End Notion.

(* ===================================================================== *)
(** * Notions used to state the properties *)
(* ===================================================================== *)

Module Props.

(** ** Token verifier *)

(** A secret is configured when [MCP_API_KEY] holds a non-empty string;
    the verifier's constructor reports anything else as "not set". *)
Definition configured (self : Auth.SimpleTokenVerifier) (secret : string)
  : Prop :=
  Auth.valid_token self = Some secret /\ secret <> "".

(** ** Notion page writer *)

(** A success result: a dict with [success] set to [True]. *)
Definition is_success (v : value) : Prop :=
  get_item "success" v = Some (VBool true).

(** An error result: the dict [{"error": msg}]. *)
Definition error_result (msg : string) : value := VDict [("error", VStr msg)].

(** The sources block as the specification words it: the line of the
    [i]-th source (counting from 1) is [i. [title](url)], with the fallback
    texts for a missing title or url. *)
Definition source_title (source : list (string * string)) : string :=
  match dict_get "title" source with
  | Some t => t
  | None => "Untitled"
  end.

Definition source_url (source : list (string * string)) : string :=
  match dict_get "url" source with
  | Some u => u
  | None => "#"
  end.

Definition numbered_line (i : nat) (source : list (string * string)) : string :=
  str_of_int (Z.of_nat i) ++ ". [" ++ source_title source ++ "]("
  ++ source_url source ++ ")".

Definition numbered_lines_from (k : nat)
           (reddit_sources : list (list (string * string))) : list string :=
  map (fun p => numbered_line (fst p) (snd p))
      (combine (seq k (length reddit_sources)) reddit_sources).

Definition numbered_lines (reddit_sources : list (list (string * string)))
  : list string :=
  numbered_lines_from 1 reddit_sources.

(** A block of text made of the given lines, each ended by a newline. *)
Definition block_of_lines (ls : list string) : string :=
  fold_right (fun l acc => l ++ Notion.newline ++ acc) "" ls.

Fixpoint has_newline (s : string) : bool :=
  match s with
  | EmptyString => false
  | String c rest => Ascii.eqb c (ascii_of_nat 10) || has_newline rest
  end.

(** The lines of a text: the segments ended by a newline, and the rest of
    the text after the last newline when it is not empty. *)
Fixpoint lines_from (cur s : string) : list string :=
  match s with
  | EmptyString => if String.eqb cur "" then [] else [cur]
  | String c rest =>
      if Ascii.eqb c (ascii_of_nat 10) then cur :: lines_from "" rest
      else lines_from (cur ++ String c "") rest
  end.

Definition lines (s : string) : list string := lines_from "" s.

(** The content of the rich-text property [name] of a posted page. *)
Definition rich_text_content (name : string) (json : value) : option value :=
  match get_item "properties" json with
  | Some props =>
      match get_item name props with
      | Some prop =>
          match get_item "rich_text" prop with
          | Some (VList [item]) =>
              match get_item "text" item with
              | Some t => get_item "content" t
              | None => None
              end
          | _ => None
          end
      | None => None
      end
  | None => None
  end.

(** The request the tool builds once both configuration values are there. *)
Definition page_request (w : Notion.World)
           (question answer search_query : string)
           (reddit_sources : list (list (string * string))) : Notion.Request :=
  Notion.mkRequest
    Notion.url_endpoint
    (Notion.page_data (Notion.database_id w) question answer search_query
                      (Notion.sources_loop 1 reddit_sources "")
                      (Notion.now_isoformat w))
    (Notion.request_headers (Notion.api_token w)).

(** The success result for a question. *)
Definition success_result (question : string) : value :=
  VDict [("success", VBool true);
         ("message", VStr "Successfully saved Q&A session to Notion");
         ("question",
          VStr (if 50 <? len question
                then str_slice_to 50 question ++ "..."
                else question))].

Definition missing_database_message : string :=
  "NOTION_QA_DATABASE_ID or NOTION_DATABASE_ID environment variable not set".

Definition missing_token_message : string :=
  "NOTION_API_TOKEN environment variable not set".

(** The ways a call of the page writer can go. *)
Inductive SaveOutcome (w : Notion.World)
          (question answer search_query : string)
          (reddit_sources : list (list (string * string)))
  : Result value * list Notion.Request -> Prop :=
| save_no_database :
    truthy (Notion.database_id w) = false ->
    SaveOutcome w question answer search_query reddit_sources
                (Ok (error_result missing_database_message), [])
| save_no_token :
    truthy (Notion.database_id w) = true ->
    truthy (Notion.api_token w) = false ->
    SaveOutcome w question answer search_query reddit_sources
                (Ok (error_result missing_token_message), [])
| save_created (response : Response) :
    truthy (Notion.database_id w) = true ->
    truthy (Notion.api_token w) = true ->
    Notion.network w (page_request w question answer search_query
                                   reddit_sources) = Ok response ->
    status_code response = 200 ->
    SaveOutcome w question answer search_query reddit_sources
                (Ok (success_result question),
                 [page_request w question answer search_query reddit_sources])
| save_refused (response : Response) :
    truthy (Notion.database_id w) = true ->
    truthy (Notion.api_token w) = true ->
    Notion.network w (page_request w question answer search_query
                                   reddit_sources) = Ok response ->
    status_code response <> 200 ->
    SaveOutcome w question answer search_query reddit_sources
                (Ok (error_result ("Failed to save to Notion: "
                                   ++ str_of_int (status_code response)
                                   ++ " - " ++ text response)),
                 [page_request w question answer search_query reddit_sources])
| save_transport (e : PyExc) :
    truthy (Notion.database_id w) = true ->
    truthy (Notion.api_token w) = true ->
    Notion.network w (page_request w question answer search_query
                                   reddit_sources) = Raise e ->
    SaveOutcome w question answer search_query reddit_sources
                (Ok (error_result ("Error saving Q&A to Notion: " ++ exc_str e)),
                 [page_request w question answer search_query reddit_sources]).

(** A world given by its environment variables and by the answer the
    network gives to every request. *)
Definition world_of (vars : list (string * string)) (answer : Result Response)
  : Notion.World :=
  Notion.mkWorld (fun name => dict_get name vars) "2024-05-01T12:00:00"
                 (fun _ => answer).

Definition both_configured : list (string * string) :=
  [("NOTION_QA_DATABASE_ID", "db-qa"); ("NOTION_DATABASE_ID", "db-main");
   ("NOTION_API_TOKEN", "secret-token")].

Definition long_question : string :=
  "How do I keep a LangChain agent from looping forever on tool calls?".

(** The database a posted page is created in. *)
Definition parent_database (json : value) : option value :=
  match get_item "parent" json with
  | Some parent => get_item "database_id" parent
  | None => None
  end.

(** ** Reddit fetch tools *)

(** An element of a tool's result that is an error record. *)
Definition is_error_item (v : value) : bool :=
  match get_item "error_details" v with
  | Some _ => true
  | None => false
  end.

(** The exception, if any, that reading an attribute raises. *)
Definition raised_by {A : Type} (r : Result A) : option PyExc :=
  match r with
  | Ok _ => None
  | Raise e => Some e
  end.

Fixpoint first_raise (reads : list (option PyExc)) : option PyExc :=
  match reads with
  | [] => None
  | Some e :: _ => Some e
  | None :: rest => first_raise rest
  end.

(** What a tool reads of a post, in the order it reads it: the six fields
    of the record, then the comment tree. *)
Definition post_reads (post : Praw.Submission) : list (option PyExc) :=
  [raised_by (Praw.title post); raised_by (Praw.selftext post);
   raised_by (Praw.url post); raised_by (Praw.created_utc post);
   raised_by (Praw.num_comments post); raised_by (Praw.permalink post);
   raised_by (Praw.comments post)].

(** [Raised limit yielded listing e]: with [yielded] posts already taken, the
    iteration up to [limit] meets the exception [e], raised by the listing
    itself or by the reads of a post, every earlier post having been read
    without failure. *)
Inductive Raised (limit : Z) : Z -> Praw.Listing -> PyExc -> Prop :=
| raised_listing (yielded : Z) (e : PyExc) :
    yielded < limit ->
    Raised limit yielded (Praw.LRaise e) e
| raised_post (yielded : Z) (post : Praw.Submission) (rest : Praw.Listing)
              (e : PyExc) :
    yielded < limit ->
    first_raise (post_reads post) = Some e ->
    Raised limit yielded (Praw.LYield post rest) e
| raised_later (yielded : Z) (post : Praw.Submission) (rest : Praw.Listing)
               (e : PyExc) :
    yielded < limit ->
    first_raise (post_reads post) = None ->
    Raised limit (yielded + 1) rest e ->
    Raised limit yielded (Praw.LYield post rest) e.

(** [Fails reddit c e]: the try block of the invocation [c] meets the
    exception [e], raised by the call that opens the listing, whatever the
    limit, or met while iterating the listing it returned. *)
Inductive Fails (reddit : Praw.Reddit) (c : Fetch.Call) (e : PyExc) : Prop :=
| fails_opening :
    Fetch.call_listing reddit c = Raise e ->
    Fails reddit c e
| fails_iterating (listing : Praw.Listing) :
    Fetch.call_listing reddit c = Ok listing ->
    Raised (Fetch.call_limit c) 0 listing e ->
    Fails reddit c e.

(** The posts a listing starts with, in its order. *)
Inductive Yields : Praw.Listing -> list Praw.Submission -> Prop :=
| yields_nil (listing : Praw.Listing) : Yields listing []
| yields_cons (post : Praw.Submission) (rest : Praw.Listing)
              (posts : list Praw.Submission) :
    Yields rest posts ->
    Yields (Praw.LYield post rest) (post :: posts).

(** The text of a comment; a placeholder has none. *)
Definition body_text (c : Praw.CommentNode) : string :=
  match c with
  | Praw.Comment b _ => b
  | Praw.MoreComments _ => ""
  end.

(** The comments attached directly to a post, and their bodies. *)
Definition top_level_comments (forest : list Praw.CommentNode)
  : list Praw.CommentNode :=
  filter Praw.is_comment forest.

Definition top_level_bodies (forest : list Praw.CommentNode) : list string :=
  map body_text (top_level_comments forest).

(** A tree without placeholders, at any depth. *)
Inductive clean : Praw.CommentNode -> Prop :=
| clean_comment (b : string) (rs : list Praw.CommentNode) :
    Forall clean rs -> clean (Praw.Comment b rs).

(** The record a tool builds for a post whose reads all succeed: the fields
    as read, the permalink made absolute, and the bodies of the sliced
    flattening of the comment tree. *)
Inductive Collected (comment_limit : Z) (post : Praw.Submission)
  : value -> Prop :=
| collected (t b u : string) (c n : Z) (p : string)
            (forest : list Praw.CommentNode) :
    Praw.title post = Ok t ->
    Praw.selftext post = Ok b ->
    Praw.url post = Ok u ->
    Praw.created_utc post = Ok c ->
    Praw.num_comments post = Ok n ->
    Praw.permalink post = Ok p ->
    Praw.comments post = Ok forest ->
    Collected comment_limit post
      (Fetch.model_dump
         (Fetch.mkRedditPost
            t b u c n ("https://reddit.com" ++ p)
            (map body_text
                 (slice_to comment_limit
                           (Praw.list_queue (Praw.replace_more forest)))))).

(** The error details hold the string [s] as the value of some key. *)
Definition carries_str (s : string) (details : dict) : bool :=
  existsb (fun kv => match snd kv with
                     | VStr t => String.eqb s t
                     | _ => false
                     end) details.

(** The request parameters the specification expects in the error details
    of each tool. *)
Definition records_request_parameters (c : Fetch.Call) (details : dict)
  : Prop :=
  match c with
  | Fetch.CallTop subreddits _ _ time_filter =>
      carries_str subreddits details = true /\
      carries_str time_filter details = true
  | Fetch.CallSearchPosts subreddits query _ _ _ =>
      carries_str subreddits details = true /\
      carries_str query details = true
  | Fetch.CallSearchReddit query _ _ _ =>
      carries_str query details = true
  end.

(** The request parameters each handler does store, by key. *)
Definition recorded_parameters (c : Fetch.Call) : list (string * value) :=
  match c with
  | Fetch.CallTop subreddits _ _ time_filter =>
      [("subreddits", VStr subreddits); ("time_filter", VStr time_filter)]
  | Fetch.CallSearchPosts subreddits _ _ _ _ =>
      [("subreddits", VStr subreddits)]
  | Fetch.CallSearchReddit _ _ _ _ => []
  end.

(** The error details of a failed call, field by field: message and class
    name of the exception, the parameters the handler stores, the two
    diagnostic booleans and, for an exception with a response, its status
    code, headers and the first 500 characters of its body. *)
Definition response_details (e : PyExc) : list (string * value) :=
  match exc_response e with
  | AttrResponse response =>
      [("http_status", VInt (status_code response));
       ("response_headers",
        VDict (map (fun kv => (fst kv, VStr (snd kv))) (headers response)));
       ("response_body", VStr (substring 0 500 (text response)))]
  | _ => []
  end.

Definition expected_details (reddit : Praw.Reddit) (c : Fetch.Call) (e : PyExc)
  : dict :=
  ([("error", VStr (exc_str e)); ("error_type", VStr (exc_type_name e))]
   ++ recorded_parameters c
   ++ [("reddit_read_only", VBool (Praw.read_only reddit));
       ("client_id_exists", VBool (truthy (Praw.config_client_id reddit)))]
   ++ response_details e)%list.

Definition failure_message (c : Fetch.Call) (e : PyExc) : string :=
  match c with
  | Fetch.CallTop subreddits _ _ _ =>
      "Top posts retrieval failed for r/" ++ subreddits ++ ": " ++ exc_str e
  | Fetch.CallSearchPosts subreddits _ _ _ _ =>
      "Subreddit search failed for r/" ++ subreddits ++ ": " ++ exc_str e
  | Fetch.CallSearchReddit _ _ _ _ =>
      "Reddit search failed: " ++ exc_str e
  end.

Definition error_record (details : dict) (message : string) : value :=
  VDict [("error_details", VDict details); ("message", VStr message);
         ("debug_info", VStr Fetch.debug_info)].

(** The same invocation with another search query. *)
Definition with_query (query : string) (c : Fetch.Call) : Fetch.Call :=
  match c with
  | Fetch.CallTop s l cl tf => Fetch.CallTop s l cl tf
  | Fetch.CallSearchPosts s _ l cl so => Fetch.CallSearchPosts s query l cl so
  | Fetch.CallSearchReddit _ l cl so => Fetch.CallSearchReddit query l cl so
  end.


(** The content of the title property [name] of a posted page. *)
Definition title_content (name : string) (json : value) : option value :=
  match get_item "properties" json with
  | Some props =>
      match get_item name props with
      | Some prop =>
          match get_item "title" prop with
          | Some (VList [item]) =>
              match get_item "text" item with
              | Some t => get_item "content" t
              | None => None
              end
          | _ => None
          end
      | None => None
      end
  | None => None
  end.

(** The start of the date property [name] of a posted page. *)
Definition date_start (name : string) (json : value) : option value :=
  match get_item "properties" json with
  | Some props =>
      match get_item name props with
      | Some prop =>
          match get_item "date" prop with
          | Some d => get_item "start" d
          | None => None
          end
      | None => None
      end
  | None => None
  end.

(** The keys of a dict, in order. *)
Definition keys_of (v : value) : list string :=
  match v with
  | VDict d => map fst d
  | _ => []
  end.

(** The names of the properties of a posted page. *)
Definition property_names (json : value) : list string :=
  match get_item "properties" json with
  | Some props => keys_of props
  | None => []
  end.

(** The keys of a post record. *)
Definition post_keys : list string :=
  ["title"; "body"; "url"; "created_utc"; "num_comments"; "permalink";
   "comments"].

(** The same invocation with another comment limit. *)
Definition with_comment_limit (comment_limit : Z) (c : Fetch.Call)
  : Fetch.Call :=
  match c with
  | Fetch.CallTop s l _ tf => Fetch.CallTop s l comment_limit tf
  | Fetch.CallSearchPosts s q l _ so =>
      Fetch.CallSearchPosts s q l comment_limit so
  | Fetch.CallSearchReddit q l _ so => Fetch.CallSearchReddit q l comment_limit so
  end.



(** Sample upstream data. *)
Definition sample_post (name : string) (forest : list Praw.CommentNode)
  : Praw.Submission :=
  Praw.mkSubmission (Ok name) (Ok "") (Ok "https://example.org/a")
                    (Ok 1700000000) (Ok 2) (Ok ("/r/test/" ++ name))
                    (Ok forest).

Definition rate_limited : PyExc :=
  mkExc "TooManyRequests" "received 429 HTTP response"
        (AttrResponse
           (mkResponse 429 [("retry-after", "5")] "Too Many Requests")).

(** An exception of the [requests] family raised before any response was
    received: it has the attribute [response], set to [None]. *)
Definition connection_error : PyExc :=
  mkExc "ConnectionError" "boom" AttrNone.

(** An exception without the attribute [response]. *)
Definition bad_time_filter : PyExc :=
  mkExc "ValueError" "'time_filter' must be one of: all, day, hour, month, week, year"
        NoAttr.

Definition reddit_of (listing : Praw.Listing) : Praw.Reddit :=
  Praw.mkReddit true (Some "client-id")
                (fun _ _ => Ok listing) (fun _ _ _ => Ok listing).

(** A client whose listing calls raise at once. *)
Definition reddit_failing_to_open (e : PyExc) : Praw.Reddit :=
  Praw.mkReddit true (Some "client-id")
                (fun _ _ => Raise e) (fun _ _ _ => Raise e).

Definition nested_forest : list Praw.CommentNode :=
  [Praw.Comment "top" [Praw.Comment "reply" []; Praw.MoreComments 7];
   Praw.MoreComments 3].

End Props.

(* ===================================================================== *)
(** * Properties of the token verifier *)
(* ===================================================================== *)

Module AuthProofs.

Import Auth.

Import Props.

Lemma truthy_spec (x : option string) :
  truthy x = true <-> exists s, x = Some s /\ s <> "".
Proof.
  destruct x as [s|]; simpl.
  - rewrite negb_true_iff. split.
    + intros H. exists s. split; [reflexivity|].
      intros ->. discriminate.
    + intros (s' & [= <-] & Hne).
      destruct (String.eqb_spec s ""); [contradiction | reflexivity].
  - split; [discriminate | intros (s & H & _); discriminate].
Qed.

Lemma verify_token_some (self : SimpleTokenVerifier) (tok : string)
      (t : AccessToken) :
  verify_token self tok = Some t ->
  configured self tok /\
  t = mkAccessToken tok "single_user" ["reddit:read"; "notion:write"] None.
Proof.
  unfold verify_token, configured.
  destruct self as [[s|]]; simpl; [|discriminate].
  destruct (String.eqb_spec s ""); simpl; [discriminate|].
  destruct (String.eqb_spec tok s); simpl; [|discriminate].
  intros [= <-]. subst. auto.
Qed.

Lemma verify_token_configured (self : SimpleTokenVerifier) (secret : string) :
  configured self secret ->
  verify_token self secret =
  Some (mkAccessToken secret "single_user" ["reddit:read"; "notion:write"] None).
Proof.
  intros [Hv Hne]. unfold verify_token. rewrite Hv. simpl.
  destruct (String.eqb_spec secret ""); [contradiction|].
  rewrite String.eqb_refl. reflexivity.
Qed.

(** C8. Token verification returns an access token exactly when a secret
    is configured and the presented token is equal to it, character for
    character; the access token then carries the presented token. In
    every other case, a differing token or no configured secret, it
    returns None. *)
Theorem verify_token_accepts_iff (self : SimpleTokenVerifier) (tok : string) :
  ((exists t, verify_token self tok = Some t) <->
   (exists secret, configured self secret /\ tok = secret)) /\
  (verify_token self tok = None <->
   ~ (exists secret, configured self secret /\ tok = secret)) /\
  (forall t, verify_token self tok = Some t ->
             t = mkAccessToken tok "single_user"
                               ["reddit:read"; "notion:write"] None).
Proof.
  assert (Hacc : (exists t, verify_token self tok = Some t) <->
                 (exists secret, configured self secret /\ tok = secret)).
  { split.
    - intros [t Ht]. exists tok. split; [|reflexivity].
      apply (verify_token_some _ _ _ Ht).
    - intros (secret & Hc & ->). eexists.
      apply verify_token_configured, Hc. }
  split; [exact Hacc|]. split.
  - rewrite <- Hacc. destruct (verify_token self tok) as [t|].
    + split; [discriminate|]. intros H. exfalso. apply H. eauto.
    + split; [|reflexivity]. intros _ [t Ht]. discriminate.
  - intros t Ht. apply (verify_token_some _ _ _ Ht).
Qed.

Example verify_token_match :
  verify_token (mkVerifier (Some "s3cret")) "s3cret" =
  Some (mkAccessToken "s3cret" "single_user"
                      ["reddit:read"; "notion:write"] None).
Proof. reflexivity. Qed.

Example verify_token_mismatch :
  verify_token (mkVerifier (Some "s3cret")) "S3cret" = None.
Proof. reflexivity. Qed.

Example verify_token_unset : verify_token (mkVerifier None) "" = None.
Proof. reflexivity. Qed.

Example verify_token_empty_key : verify_token (mkVerifier (Some "")) "" = None.
Proof. reflexivity. Qed.

End AuthProofs.

(* ===================================================================== *)
(** * Properties of the Notion page writer *)
(* ===================================================================== *)

Module NotionProofs.

Import Notion Props.

Lemma append_assoc (a b c : string) : (a ++ b) ++ c = a ++ (b ++ c).
Proof. induction a as [|ch a IH]; simpl; [reflexivity | now rewrite IH]. Qed.

Lemma append_nil_r (a : string) : a ++ "" = a.
Proof. induction a as [|ch a IH]; simpl; [reflexivity | now rewrite IH]. Qed.

Lemma length_append (a b : string) :
  String.length (a ++ b) = (String.length a + String.length b)%nat.
Proof. induction a as [|ch a IH]; simpl; [reflexivity | now rewrite IH]. Qed.

(** Every call of the page writer goes one of the five ways. *)
Lemma save_outcome (w : World) (question answer search_query : string)
      (reddit_sources : list (list (string * string))) :
  SaveOutcome w question answer search_query reddit_sources
    (save_reddit_qa_to_notion w question answer search_query reddit_sources).
Proof.
  unfold save_reddit_qa_to_notion, io_try, save_reddit_qa_to_notion_try.
  destruct (truthy (database_id w)) eqn:Hdb; simpl.
  2: { apply save_no_database, Hdb. }
  destruct (truthy (api_token w)) eqn:Htok; simpl.
  2: { apply save_no_token; assumption. }
  unfold io_bind, requests_post. simpl.
  fold (page_request w question answer search_query reddit_sources).
  destruct (network w (page_request w question answer search_query
                                    reddit_sources)) as [response|e] eqn:Hnet.
  - destruct (Z.eqb_spec (status_code response) 200) as [H200|H200]; simpl.
    + eapply save_created; eassumption.
    + eapply save_refused; eassumption.
  - simpl. apply save_transport; assumption.
Qed.

Lemma substring_prefix (n : nat) (s : string) :
  (n <= String.length s)%nat ->
  exists rest, s = substring 0 n s ++ rest /\
               String.length (substring 0 n s) = n.
Proof.
  revert s. induction n as [|n IH]; intros s Hn.
  - exists s. destruct s; auto.
  - destruct s as [|c s]; simpl in Hn; [lia|].
    destruct (IH s) as (rest & Heq & Hlen); [lia|].
    exists rest. simpl. split; [now rewrite <- Heq | now rewrite Hlen].
Qed.

Lemma success_result_is_success (question : string) :
  is_success (success_result question).
Proof. reflexivity. Qed.

Lemma error_result_not_success (msg : string) : ~ is_success (error_result msg).
Proof. unfold is_success, error_result. simpl. discriminate. Qed.

(** C3. The page writer never raises. With both configuration values set
    it issues the page-creation request, and its result follows the
    response to that request: the success result when the status code is
    200, and for any other status code the error result whose message is
    made of the status code and the raw response body; when the request
    raises, the result is the error result made of the exception's message.
    So the result is a success result exactly when the request was issued
    and its response has status code 200. *)
Theorem save_success_iff_status_200
        (w : World) (question answer search_query : string)
        (reddit_sources : list (list (string * string))) :
  exists v requests,
    save_reddit_qa_to_notion w question answer search_query reddit_sources
    = (Ok v, requests) /\
    (is_success v <->
     truthy (database_id w) = true /\ truthy (api_token w) = true /\
     exists response,
       requests = [page_request w question answer search_query
                                reddit_sources] /\
       network w (page_request w question answer search_query reddit_sources)
       = Ok response /\
       status_code response = 200) /\
    (truthy (database_id w) = true -> truthy (api_token w) = true ->
     requests = [page_request w question answer search_query reddit_sources] /\
     match network w (page_request w question answer search_query
                                   reddit_sources) with
     | Ok response =>
         v = if status_code response =? 200
             then VDict [("success", VBool true);
                         ("message",
                          VStr "Successfully saved Q&A session to Notion");
                         ("question",
                          VStr (if 50 <? len question
                                then str_slice_to 50 question ++ "..."
                                else question))]
             else VDict [("error",
                          VStr ("Failed to save to Notion: "
                                ++ str_of_int (status_code response)
                                ++ " - " ++ text response))]
     | Raise e =>
         v = VDict [("error",
                     VStr ("Error saving Q&A to Notion: " ++ exc_str e))]
     end).
Proof.
  destruct (save_outcome w question answer search_query reddit_sources)
    as [Hdb | Hdb Htok | response Hdb Htok Hnet H200
        | response Hdb Htok Hnet H200 | e Hdb Htok Hnet];
    eexists; eexists; (split; [reflexivity|]).
  - split; [|intros; congruence].
    split; [intros H; elim (error_result_not_success _ H)
           | intros (? & _); congruence].
  - split; [|intros; congruence].
    split; [intros H; elim (error_result_not_success _ H)
           | intros (_ & ? & _); congruence].
  - split.
    + split; [intros _; eauto 6 | intros _; apply success_result_is_success].
    + intros _ _. split; [reflexivity|]. rewrite Hnet.
      apply Z.eqb_eq in H200. now rewrite H200.
  - split.
    + split; [intros H; elim (error_result_not_success _ H)|].
      intros (_ & _ & r & _ & Hr & Hs). congruence.
    + intros _ _. split; [reflexivity|]. rewrite Hnet.
      apply Z.eqb_neq in H200. now rewrite H200.
  - split.
    + split; [intros H; elim (error_result_not_success _ H)|].
      intros (_ & _ & r & _ & Hr & Hs). congruence.
    + intros _ _. split; [reflexivity|]. now rewrite Hnet.
Qed.

Lemma save_success_iff_status_200_witness :
  let w := world_of both_configured (Ok (mkResponse 400 [] "bad request")) in
  exists v requests,
    save_reddit_qa_to_notion w "q" "a" "s" [] = (Ok v, requests) /\
    requests = [page_request w "q" "a" "s" []] /\
    v = VDict [("error", VStr "Failed to save to Notion: 400 - bad request")].
Proof.
  intros w.
  destruct (save_success_iff_status_200 w "q" "a" "s" [])
    as (v & requests & Hsave & _ & Hconf).
  destruct (Hconf eq_refl eq_refl) as (Hreq & Hv).
  exists v, requests. split; [exact Hsave|]. split; [exact Hreq|].
  exact Hv.
Defined.

Example save_status_200 :
  fst (save_reddit_qa_to_notion
         (world_of both_configured (Ok (mkResponse 200 [] "{}")))
         "q" "a" "s" [])
  = Ok (VDict [("success", VBool true);
               ("message", VStr "Successfully saved Q&A session to Notion");
               ("question", VStr "q")]).
Proof. reflexivity. Qed.

Example save_status_201 :
  fst (save_reddit_qa_to_notion
         (world_of both_configured (Ok (mkResponse 201 [] "created")))
         "q" "a" "s" [])
  = Ok (VDict [("error", VStr "Failed to save to Notion: 201 - created")]).
Proof. reflexivity. Qed.

Example save_status_400 :
  fst (save_reddit_qa_to_notion
         (world_of both_configured (Ok (mkResponse 400 [] "bad request")))
         "q" "a" "s" [])
  = Ok (VDict [("error", VStr "Failed to save to Notion: 400 - bad request")]).
Proof. reflexivity. Qed.

Example save_transport_failure :
  fst (save_reddit_qa_to_notion
         (world_of both_configured
                   (Raise (mkExc "ConnectionError" "connection refused"
                                 AttrNone)))
         "q" "a" "s" [])
  = Ok (VDict [("error",
                VStr "Error saving Q&A to Notion: connection refused")]).
Proof. reflexivity. Qed.

(** C4. When no database identifier or no API token can be resolved from
    the environment, the page writer returns an error result right away and
    issues no request; the message names the database variables when the
    database identifier is missing, and the token variable when only the
    token is missing. *)
Theorem save_missing_configuration
        (w : World) (question answer search_query : string)
        (reddit_sources : list (list (string * string))) :
  truthy (database_id w) = false \/ truthy (api_token w) = false ->
  exists msg,
    save_reddit_qa_to_notion w question answer search_query reddit_sources
    = (Ok (error_result msg), []) /\
    ((truthy (database_id w) = false /\
      contains "NOTION_QA_DATABASE_ID" msg = true /\
      contains "NOTION_DATABASE_ID" msg = true) \/
     (truthy (database_id w) = true /\ truthy (api_token w) = false /\
      contains "NOTION_API_TOKEN" msg = true)).
Proof.
  intros Hmissing.
  destruct (save_outcome w question answer search_query reddit_sources)
    as [Hdb | Hdb Htok | response Hdb Htok Hnet H200
        | response Hdb Htok Hnet H200 | e Hdb Htok Hnet].
  - exists missing_database_message. split; [reflexivity|].
    left. split; [assumption | split; reflexivity].
  - exists missing_token_message. split; [reflexivity|].
    right. split; [assumption | split; [assumption | reflexivity]].
  - destruct Hmissing; congruence.
  - destruct Hmissing; congruence.
  - destruct Hmissing; congruence.
Qed.

Lemma save_missing_configuration_witness :
  exists msg,
    save_reddit_qa_to_notion
      (world_of [("NOTION_API_TOKEN", "secret-token")]
                (Ok (mkResponse 200 [] "{}")))
      "q" "a" "s" [[("title", "A"); ("url", "http://x")]]
    = (Ok (error_result msg), []) /\
    contains "DATABASE_ID" msg = true.
Proof.
  destruct (save_missing_configuration
              (world_of [("NOTION_API_TOKEN", "secret-token")]
                        (Ok (mkResponse 200 [] "{}")))
              "q" "a" "s" [[("title", "A"); ("url", "http://x")]])
    as (msg & Heq & Hmsg).
  - left. reflexivity.
  - exists msg. split; [exact Heq|].
    vm_compute in Heq. injection Heq as <-. reflexivity.
Defined.

(** C10. The database identifier is the value of NOTION_QA_DATABASE_ID
    when that variable holds a non-empty value, and the value of
    NOTION_DATABASE_ID otherwise; it is the database the posted page names
    as its parent. The database identifier is checked before the token: when
    it is missing the error result names the database variables and not the
    token variable, whether or not the token is there. *)
Theorem database_id_resolution
        (w : World) (question answer search_query : string)
        (reddit_sources : list (list (string * string))) :
  (truthy (getenv w "NOTION_QA_DATABASE_ID") = true ->
   database_id w = getenv w "NOTION_QA_DATABASE_ID") /\
  (truthy (getenv w "NOTION_QA_DATABASE_ID") = false ->
   database_id w = getenv w "NOTION_DATABASE_ID") /\
  (truthy (database_id w) = true -> truthy (api_token w) = true ->
   exists req,
     snd (save_reddit_qa_to_notion w question answer search_query
                                   reddit_sources) = [req] /\
     parent_database (req_json req) = Some (value_of_opt (database_id w))) /\
  (truthy (database_id w) = false ->
   exists msg,
     save_reddit_qa_to_notion w question answer search_query reddit_sources
     = (Ok (error_result msg), []) /\
     contains "NOTION_QA_DATABASE_ID" msg = true /\
     contains "NOTION_DATABASE_ID" msg = true /\
     contains "NOTION_API_TOKEN" msg = false).
Proof.
  split; [|split; [|split]].
  - intros H. unfold database_id, py_or. now rewrite H.
  - intros H. unfold database_id, py_or. now rewrite H.
  - intros Hdb Htok.
    exists (page_request w question answer search_query reddit_sources).
    split; [|reflexivity].
    destruct (save_outcome w question answer search_query reddit_sources);
      try congruence; reflexivity.
  - intros Hdb. exists missing_database_message.
    destruct (save_outcome w question answer search_query reddit_sources);
      try congruence.
    repeat (split; [reflexivity|]). reflexivity.
Qed.

Lemma database_id_resolution_witness :
  Notion.database_id (world_of [("NOTION_DATABASE_ID", "db-main")]
                               (Ok (mkResponse 200 [] "{}")))
  = Some "db-main" /\
  exists msg,
    save_reddit_qa_to_notion (world_of [] (Ok (mkResponse 200 [] "{}")))
                             "q" "a" "s" []
    = (Ok (error_result msg), []) /\
    contains "NOTION_API_TOKEN" msg = false.
Proof.
  split.
  - apply (database_id_resolution
             (world_of [("NOTION_DATABASE_ID", "db-main")]
                       (Ok (mkResponse 200 [] "{}"))) "q" "a" "s" []).
    reflexivity.
  - destruct (database_id_resolution
                (world_of [] (Ok (mkResponse 200 [] "{}"))) "q" "a" "s" [])
      as (_ & _ & _ & H).
    destruct (H eq_refl) as (msg & Heq & _ & _ & Htok).
    exists msg. split; assumption.
Defined.

Example prefers_qa_database :
  Notion.database_id (world_of both_configured (Ok (mkResponse 200 [] "{}")))
  = Some "db-qa".
Proof. reflexivity. Qed.

Example empty_qa_database_falls_back :
  Notion.database_id
    (world_of [("NOTION_QA_DATABASE_ID", ""); ("NOTION_DATABASE_ID", "db-main")]
              (Ok (mkResponse 200 [] "{}")))
  = Some "db-main".
Proof. reflexivity. Qed.

(** A successful call returns the success result of its question. *)
Lemma success_is_success_result
      (w : World) (question answer search_query : string)
      (reddit_sources : list (list (string * string))) (v : value) :
  fst (save_reddit_qa_to_notion w question answer search_query reddit_sources)
  = Ok v ->
  is_success v -> v = success_result question.
Proof.
  intros Hv Hs.
  destruct (save_outcome w question answer search_query reddit_sources);
    simpl in Hv; injection Hv as <-;
    solve [reflexivity | elim (error_result_not_success _ Hs)].
Qed.

(** C9. On success the question field of the result is the question itself
    when it has at most 50 characters, and otherwise its first 50 characters
    followed by three dots. *)
Theorem echoed_question
        (w : World) (question answer search_query : string)
        (reddit_sources : list (list (string * string))) (v : value) :
  fst (save_reddit_qa_to_notion w question answer search_query reddit_sources)
  = Ok v ->
  is_success v ->
  (len question <= 50 -> get_item "question" v = Some (VStr question)) /\
  (50 < len question ->
   exists first50 rest,
     question = first50 ++ rest /\ String.length first50 = 50%nat /\
     get_item "question" v = Some (VStr (first50 ++ "..."))).
Proof.
  intros Hv Hs.
  rewrite (success_is_success_result _ _ _ _ _ _ Hv Hs).
  unfold success_result, get_item. simpl. split; intros Hlen.
  - destruct (Z.ltb_spec 50 (len question)); [lia | reflexivity].
  - destruct (Z.ltb_spec 50 (len question)); [|lia].
    destruct (substring_prefix 50 question) as (rest & Heq & Hl).
    { unfold len in Hlen. lia. }
    exists (substring 0 50 question), rest. auto.
Qed.

Lemma echoed_question_witness :
  50 < len long_question /\
  exists v,
    fst (save_reddit_qa_to_notion
           (world_of both_configured (Ok (mkResponse 200 [] "{}")))
           long_question "a" "s" []) = Ok v /\
    get_item "question" v <> Some (VStr long_question) /\
    exists first50 rest,
      long_question = first50 ++ rest /\ String.length first50 = 50%nat /\
      get_item "question" v = Some (VStr (first50 ++ "...")).
Proof.
  split; [reflexivity|].
  eexists. split; [reflexivity|]. split; [discriminate|].
  apply (echoed_question
           (world_of both_configured (Ok (mkResponse 200 [] "{}")))
           long_question "a" "s" []); reflexivity.
Defined.

Example echoed_long_question :
  fst (save_reddit_qa_to_notion
         (world_of both_configured (Ok (mkResponse 200 [] "{}")))
         long_question "a" "s" [])
  = Ok (VDict
          [("success", VBool true);
           ("message", VStr "Successfully saved Q&A session to Notion");
           ("question",
            VStr "How do I keep a LangChain agent from looping forev...")]).
Proof. reflexivity. Qed.

(** ** The sources block *)

Lemma numbered_lines_from_cons (k : nat) (source : list (string * string))
      (rest : list (list (string * string))) :
  numbered_lines_from k (source :: rest)
  = numbered_line k source :: numbered_lines_from (S k) rest.
Proof. reflexivity. Qed.

(** The loop appends to the text it is given the lines of the sources it
    still has to visit. *)
Lemma sources_loop_block (reddit_sources : list (list (string * string))) :
  forall (k : nat) (sources_text : string),
    sources_loop (Z.of_nat k) reddit_sources sources_text
    = sources_text ++ block_of_lines (numbered_lines_from k reddit_sources).
Proof.
  induction reddit_sources as [|source rest IH]; intros k sources_text.
  - simpl. now rewrite append_nil_r.
  - cbn [sources_loop]. rewrite numbered_lines_from_cons.
    replace (Z.of_nat k + 1) with (Z.of_nat (S k)) by lia.
    rewrite IH. cbn [block_of_lines fold_right].
    unfold numbered_line, dict_get_default, source_title, source_url.
    repeat rewrite append_assoc. reflexivity.
Qed.

Lemma numbered_lines_from_length (reddit_sources : list (list (string * string)))
      (k : nat) :
  length (numbered_lines_from k reddit_sources) = length reddit_sources.
Proof.
  unfold numbered_lines_from.
  rewrite length_map, length_combine, length_seq. apply Nat.min_id.
Qed.

Lemma numbered_lines_from_nth (reddit_sources : list (list (string * string))) :
  forall (k i : nat) (source : list (string * string)),
    nth_error reddit_sources i = Some source ->
    nth_error (numbered_lines_from k reddit_sources) i
    = Some (numbered_line (k + i) source).
Proof.
  induction reddit_sources as [|s rest IH]; intros k i source Hnth.
  - destruct i; discriminate.
  - rewrite numbered_lines_from_cons. destruct i as [|i]; simpl in *.
    + injection Hnth as ->. now rewrite Nat.add_0_r.
    + rewrite (IH (S k) i source Hnth). do 2 f_equal. lia.
Qed.

Lemma has_newline_append (a b : string) :
  has_newline (a ++ b) = has_newline a || has_newline b.
Proof.
  induction a as [|c a IH]; simpl; [reflexivity|].
  now rewrite IH, orb_assoc.
Qed.

Lemma digits_no_newline (d : Decimal.uint) :
  has_newline (NilEmpty.string_of_uint d) = false.
Proof. induction d; simpl; [reflexivity | assumption ..]. Qed.

Lemma str_of_int_no_newline (n : Z) : has_newline (str_of_int n) = false.
Proof.
  unfold str_of_int, NilZero.string_of_int, NilZero.string_of_uint.
  destruct (Z.to_int n) as [d|d]; destruct d; simpl;
    try reflexivity; apply digits_no_newline.
Qed.

Lemma numbered_line_no_newline (i : nat) (source : list (string * string)) :
  has_newline (source_title source) = false ->
  has_newline (source_url source) = false ->
  has_newline (numbered_line i source) = false.
Proof.
  intros Ht Hu. unfold numbered_line.
  repeat rewrite has_newline_append.
  rewrite str_of_int_no_newline, Ht, Hu. reflexivity.
Qed.

(** Reading a line that holds no newline, up to the newline that ends it. *)
Lemma lines_from_line (l : string) :
  forall (cur rest : string),
    has_newline l = false ->
    lines_from cur (l ++ newline ++ rest) = (cur ++ l) :: lines_from "" rest.
Proof.
  induction l as [|c l IH]; intros cur rest Hl.
  - simpl. now rewrite append_nil_r.
  - simpl in Hl. apply orb_false_iff in Hl as [Hc Hl].
    cbn [append lines_from]. rewrite Hc, (IH _ _ Hl), append_assoc.
    reflexivity.
Qed.

Lemma lines_block_of_lines (ls : list string) :
  Forall (fun l => has_newline l = false) ls ->
  lines (block_of_lines ls) = ls.
Proof.
  unfold lines. induction 1 as [|l ls Hl _ IH]; [reflexivity|].
  cbn [block_of_lines fold_right]. rewrite (lines_from_line l "" _ Hl).
  f_equal. exact IH.
Qed.

Lemma numbered_lines_from_no_newline
      (reddit_sources : list (list (string * string))) :
  Forall (fun source => has_newline (source_title source) = false /\
                        has_newline (source_url source) = false)
         reddit_sources ->
  forall k, Forall (fun l => has_newline l = false)
                   (numbered_lines_from k reddit_sources).
Proof.
  induction 1 as [|source rest [Ht Hu] _ IH]; intros k.
  - constructor.
  - rewrite numbered_lines_from_cons. constructor; [|apply IH].
    now apply numbered_line_no_newline.
Qed.

(** C5. The sources block is made of one line per source, in input order,
    each ended by a newline; the line of the i-th source, counting from 1,
    is [i. [title](url)], where a missing title reads Untitled and a missing
    url reads #. When no title or url holds a newline these are exactly the
    lines of the block. The block is the content of the Reddit Sources
    property of the posted page. The two sources of the specification's
    example render as [1. [A](http://x)] and [2. [Untitled](#)]. *)
Theorem sources_block_rendering
        (reddit_sources : list (list (string * string))) :
  sources_loop 1 reddit_sources ""
  = block_of_lines (numbered_lines reddit_sources) /\
  length (numbered_lines reddit_sources) = length reddit_sources /\
  (forall i source,
      nth_error reddit_sources i = Some source ->
      nth_error (numbered_lines reddit_sources) i
      = Some (numbered_line (S i) source)) /\
  (Forall (fun source => has_newline (source_title source) = false /\
                         has_newline (source_url source) = false)
          reddit_sources ->
   lines (sources_loop 1 reddit_sources "") = numbered_lines reddit_sources) /\
  (forall w question answer search_query,
      truthy (database_id w) = true -> truthy (api_token w) = true ->
      exists req,
        snd (save_reddit_qa_to_notion w question answer search_query
                                      reddit_sources) = [req] /\
        rich_text_content "Reddit Sources" (req_json req)
        = Some (VStr (sources_loop 1 reddit_sources ""))) /\
  numbered_lines [[("title", "A"); ("url", "http://x")]; []]
  = ["1. [A](http://x)"; "2. [Untitled](#)"].
Proof.
  assert (Hblock : sources_loop 1 reddit_sources ""
                   = block_of_lines (numbered_lines reddit_sources)).
  { apply (sources_loop_block reddit_sources 1 ""). }
  split; [exact Hblock|]. split; [apply numbered_lines_from_length|].
  split; [|split; [|split]].
  - intros i source Hnth.
    apply (numbered_lines_from_nth reddit_sources 1 i source Hnth).
  - intros Hclean. rewrite Hblock. apply lines_block_of_lines.
    now apply numbered_lines_from_no_newline.
  - intros w question answer search_query Hdb Htok.
    exists (page_request w question answer search_query reddit_sources).
    split; [|reflexivity].
    destruct (save_outcome w question answer search_query reddit_sources);
      try congruence; reflexivity.
  - reflexivity.
Qed.

Lemma sources_block_rendering_witness :
  lines (sources_loop 1 [[("title", "A"); ("url", "http://x")]; []] "")
  = ["1. [A](http://x)"; "2. [Untitled](#)"].
Proof.
  destruct (sources_block_rendering
              [[("title", "A"); ("url", "http://x")]; []])
    as (_ & _ & _ & Hlines & _).
  apply Hlines. repeat constructor.
Defined.

Example sources_block_example :
  sources_loop 1 [[("title", "A"); ("url", "http://x")]; []] ""
  = "1. [A](http://x)" ++ newline ++ "2. [Untitled](#)" ++ newline.
Proof. reflexivity. Qed.

End NotionProofs.

(* ===================================================================== *)
(** * Properties of the Reddit fetch tools *)
(* ===================================================================== *)

Module FetchProofs.

Import Praw Fetch Props.

Local Open Scope list_scope.

(** ** Comment trees *)

Lemma CommentNode_nested_ind (P : CommentNode -> Prop) :
  (forall b rs, Forall P rs -> P (Comment b rs)) ->
  (forall n, P (MoreComments n)) ->
  forall c, P c.
Proof.
  intros HC HM. fix IH 1. intros [b rs|n]; [apply HC | apply HM].
  induction rs as [|r rs IHrs]; constructor; [apply IH | exact IHrs].
Qed.

Lemma is_comment_prune (c : CommentNode) : is_comment (prune c) = is_comment c.
Proof. destruct c; reflexivity. Qed.

Lemma body_text_prune (c : CommentNode) : body_text (prune c) = body_text c.
Proof. destruct c; reflexivity. Qed.

Lemma prune_clean (c : CommentNode) : is_comment c = true -> clean (prune c).
Proof.
  induction c as [b rs IH|n] using CommentNode_nested_ind; [|discriminate].
  intros _. simpl. constructor.
  induction IH as [|r rs Hr _ IHrs]; simpl; [constructor|].
  rewrite is_comment_prune.
  destruct (is_comment r) eqn:Hc; [constructor; auto | exact IHrs].
Qed.

Lemma replace_more_clean (forest : list CommentNode) :
  Forall clean (replace_more forest).
Proof.
  unfold replace_more. induction forest as [|c forest IH]; simpl; [constructor|].
  rewrite is_comment_prune.
  destruct (is_comment c) eqn:Hc; [constructor; auto using prune_clean | exact IH].
Qed.

(** The top-level comments after [replace_more] are the comments attached
    to the post, in their order. *)
Lemma replace_more_top_level (forest : list CommentNode) :
  map body_text (replace_more forest) = top_level_bodies forest.
Proof.
  unfold replace_more, top_level_bodies, top_level_comments.
  induction forest as [|c forest IH]; simpl; [reflexivity|].
  rewrite is_comment_prune. destruct (is_comment c); simpl; [|exact IH].
  now rewrite body_text_prune, IH.
Qed.

Lemma replace_more_length (forest : list CommentNode) :
  length (replace_more forest) = length (top_level_comments forest).
Proof.
  rewrite <- (length_map body_text), replace_more_top_level.
  unfold top_level_bodies. now rewrite length_map.
Qed.

Lemma list_queue_clean (queue : list CommentNode) :
  Forall clean queue -> Forall clean (list_queue queue).
Proof.
  funelim (list_queue queue); intros Hq; simp list_queue.
  - inversion Hq as [|c q' Hc Hq']; subst. constructor; [exact Hc|].
    apply H. inversion Hc; subst. apply Forall_app. split; assumption.
  - inversion Hq as [|c q' Hc Hq']; subst. inversion Hc.
Qed.



Lemma slice_to_is_firstn {A : Type} (n : Z) (xs : list A) :
  exists k, slice_to n xs = firstn k xs.
Proof. unfold slice_to. destruct (0 <=? n); eauto. Qed.

Lemma slice_to_nonneg {A : Type} (n : Z) (xs : list A) :
  0 <= n -> slice_to n xs = firstn (Z.to_nat n) xs.
Proof.
  intros Hn. unfold slice_to. destruct (Z.leb_spec 0 n); [reflexivity | lia].
Qed.

Lemma Forall_firstn_keeps {A : Type} (P : A -> Prop) (xs : list A) :
  Forall P xs -> forall k, Forall P (firstn k xs).
Proof.
  induction 1 as [|x xs Hx _ IH]; intros [|k]; simpl; constructor; auto.
Qed.

Lemma clean_slice (n : Z) (cs : list CommentNode) :
  Forall clean cs -> Forall clean (slice_to n cs).
Proof.
  intros H. destruct (slice_to_is_firstn n cs) as [k ->].
  now apply Forall_firstn_keeps.
Qed.

(** Reading the bodies of placeholder-free nodes never fails. *)
Lemma append_bodies_clean (cs : list CommentNode) :
  Forall clean cs ->
  forall acc, append_bodies cs acc = Ok (acc ++ map body_text cs).
Proof.
  induction 1 as [|c cs Hc _ IH]; intros acc; simpl.
  - now rewrite app_nil_r.
  - destruct Hc as [b rs _]. simpl. rewrite IH, <- app_assoc. reflexivity.
Qed.

Example list_queue_nested :
  map body_text (list_queue (replace_more nested_forest)) = ["top"; "reply"].
Proof. reflexivity. Qed.

(** ** One post *)

(** Reading a post raises the first exception among its reads, and builds
    the record when there is none. *)
Lemma collect_post_spec (comment_limit : Z) (post : Submission) :
  match first_raise (post_reads post) with
  | Some e => collect_post comment_limit post = Raise e
  | None => exists d, collect_post comment_limit post = Ok d /\
                      Collected comment_limit post d
  end.
Proof.
  destruct post as [[t|e1] [b|e2] [u|e3] [c|e4] [n|e5] [p|e6] [forest|e7]];
    try reflexivity.
  cbn [post_reads first_raise raised_by Praw.title Praw.selftext Praw.url
       Praw.created_utc Praw.num_comments Praw.permalink Praw.comments].
  unfold collect_post. cbn [bind Praw.title Praw.selftext Praw.url
       Praw.created_utc Praw.num_comments Praw.permalink Praw.comments].
  rewrite append_bodies_clean
    by apply clean_slice, list_queue_clean, replace_more_clean.
  eexists. split; [reflexivity|]. cbn. now constructor.
Qed.

Lemma collect_post_raise (comment_limit : Z) (post : Submission) (e : PyExc) :
  collect_post comment_limit post = Raise e <->
  first_raise (post_reads post) = Some e.
Proof.
  pose proof (collect_post_spec comment_limit post) as H.
  destruct (first_raise (post_reads post)) as [e'|].
  - rewrite H. split; congruence.
  - destruct H as (d & -> & _). split; discriminate.
Qed.

Lemma collect_post_ok (comment_limit : Z) (post : Submission) (d : value) :
  collect_post comment_limit post = Ok d ->
  first_raise (post_reads post) = None /\ Collected comment_limit post d.
Proof.
  pose proof (collect_post_spec comment_limit post) as H.
  destruct (first_raise (post_reads post)) as [e'|].
  - rewrite H. discriminate.
  - destruct H as (d' & -> & Hc). intros [= <-]. auto.
Qed.

(** ** The loop over the listing *)

Lemma for_posts_raised (limit comment_limit : Z) (listing : Listing) :
  forall yielded posts e,
    for_posts limit yielded listing comment_limit posts = Raise e <->
    Raised limit yielded listing e.
Proof.
  induction listing as [|post rest IH|e0]; intros yielded posts e;
    cbn [for_posts]; destruct (Z.leb_spec limit yielded) as [Hstop|Hgo].
  - split; [discriminate | inversion 1; lia].
  - split; [discriminate | inversion 1].
  - split; [discriminate | inversion 1; lia].
  - pose proof (collect_post_spec comment_limit post) as Hpost.
    destruct (first_raise (post_reads post)) as [e'|] eqn:Hreads.
    + rewrite Hpost. cbn [bind]. split.
      * intros [= <-]. now apply raised_post.
      * inversion 1; subst; congruence.
    + destruct Hpost as (d & -> & _). cbn [bind]. rewrite IH. split.
      * intros H. now apply raised_later.
      * inversion 1; subst; [congruence | assumption].
  - split; [discriminate | inversion 1; lia].
  - split.
    + intros [= <-]. now apply raised_listing.
    + inversion 1; subst. reflexivity.
Qed.

(** A loop that returns has appended, for some posts the listing starts
    with, their records in order, and no more than the limit leaves room
    for. *)
Lemma for_posts_ok (limit comment_limit : Z) (listing : Listing) :
  forall yielded posts result,
    for_posts limit yielded listing comment_limit posts = Ok result ->
    exists taken ds,
      result = posts ++ ds /\
      Yields listing taken /\
      Forall2 (Collected comment_limit) taken ds /\
      Z.of_nat (length ds) <= Z.max 0 (limit - yielded).
Proof.
  induction listing as [|post rest IH|e0]; intros yielded posts result;
    cbn [for_posts]; destruct (Z.leb_spec limit yielded) as [Hstop|Hgo];
    try (intros [= <-]; exists [], []; rewrite app_nil_r;
         repeat split; [constructor | constructor | simpl; lia]).
  - destruct (collect_post comment_limit post) as [d|e] eqn:Hpost;
      cbn [bind]; [|discriminate].
    intros Hrest. apply IH in Hrest as (taken & ds & -> & Hy & Hc & Hlen).
    exists (post :: taken), (d :: ds). rewrite <- app_assoc.
    repeat split.
    + now constructor.
    + constructor; [apply (collect_post_ok _ _ _ Hpost) | exact Hc].
    + simpl length. lia.
  - discriminate.
Qed.

(** ** The tools *)

Lemma invoke_eq (reddit : Reddit) (c : Call) :
  invoke reddit c
  = try_except (invoke_try reddit c) (invoke_except reddit c).
Proof. destruct c; reflexivity. Qed.

Lemma invoke_try_eq (reddit : Reddit) (c : Call) :
  invoke_try reddit c
  = bind (call_listing reddit c)
         (fun listing =>
            for_posts (call_limit c) 0 listing (call_comment_limit c) []).
Proof. destruct c; reflexivity. Qed.

(** The handler builds the error record, unless the exception has a
    [response] attribute that is [None]: then the handler itself raises. *)
Lemma invoke_except_eq (reddit : Reddit) (c : Call) (e : PyExc) :
  exc_response e <> AttrNone ->
  invoke_except reddit c e
  = Ok [error_record (expected_details reddit c e) (failure_message c e)].
Proof.
  destruct e as [name msg [| |response]]; intros Hne; destruct c;
    try reflexivity; now elim Hne.
Qed.

Lemma invoke_except_none (reddit : Reddit) (c : Call) (e : PyExc) :
  exc_response e = AttrNone ->
  invoke_except reddit c e = Raise (none_has_no_attribute "status_code").
Proof.
  destruct e as [name msg r]. simpl. intros ->. destruct c; reflexivity.
Qed.

(** The try block raises exactly the failures of the opening call and of
    the iteration. *)
Lemma invoke_try_fails (reddit : Reddit) (c : Call) (e : PyExc) :
  invoke_try reddit c = Raise e <-> Fails reddit c e.
Proof.
  rewrite invoke_try_eq. split.
  - destruct (call_listing reddit c) as [listing|e0] eqn:Hopen; simpl.
    + intros H. apply for_posts_raised in H.
      now apply fails_iterating with listing.
    + intros [= <-]. now apply fails_opening.
  - intros [Hopen|listing Hopen Hraised]; rewrite Hopen; simpl.
    + reflexivity.
    + now apply for_posts_raised.
Qed.

Lemma invoke_fails (reddit : Reddit) (c : Call) (e : PyExc) :
  Fails reddit c e ->
  exc_response e <> AttrNone ->
  invoke reddit c
  = Ok [error_record (expected_details reddit c e) (failure_message c e)].
Proof.
  intros H Hne. apply invoke_try_fails in H.
  rewrite invoke_eq, H. simpl. now apply invoke_except_eq.
Qed.

(** A result without an error record comes from a [try] block that ran to
    its end. *)
Lemma successful_try (reddit : Reddit) (c : Call) (result : list value) :
  invoke reddit c = Ok result ->
  existsb is_error_item result = false ->
  invoke_try reddit c = Ok result.
Proof.
  rewrite invoke_eq. destruct (invoke_try reddit c) as [posts|e]; simpl.
  - auto.
  - destruct e as [name msg [| |response]].
    + rewrite invoke_except_eq by discriminate. intros [= <-]. discriminate.
    + rewrite invoke_except_none by reflexivity. discriminate.
    + rewrite invoke_except_eq by discriminate. intros [= <-]. discriminate.
Qed.

Lemma successful_fetch (reddit : Reddit) (c : Call) (result : list value) :
  invoke reddit c = Ok result ->
  existsb is_error_item result = false ->
  Z.of_nat (length result) <= Z.max 0 (call_limit c) /\
  exists listing posts,
    call_listing reddit c = Ok listing /\
    Yields listing posts /\
    Forall2 (Collected (call_comment_limit c)) posts result.
Proof.
  intros Hinv Hok. pose proof (successful_try _ _ _ Hinv Hok) as Htry.
  rewrite invoke_try_eq in Htry.
  destruct (call_listing reddit c) as [listing|e] eqn:Hopen; [|discriminate].
  simpl in Htry.
  apply for_posts_ok in Htry as (taken & ds & -> & Hy & Hc & Hlen).
  simpl. split; [lia | eauto].
Qed.

(** C1 does not hold of the code. When the exception met by the try block,
    raised by the opening call, by the listing or by the reads of a post,
    is one whose attribute [response] is [None], the handler reads
    [e.response.status_code] and raises: the tool returns no error record,
    and an AttributeError propagates to the caller. *)
Theorem handler_raises_on_none_response
        (reddit : Reddit) (c : Call) (e : PyExc) :
  Fails reddit c e ->
  exc_response e = AttrNone ->
  invoke reddit c = Raise (none_has_no_attribute "status_code").
Proof.
  intros H Hnone. apply invoke_try_fails in H.
  rewrite invoke_eq, H. simpl. now apply invoke_except_none.
Qed.

Lemma handler_raises_on_none_response_witness :
  invoke (reddit_of (LYield (sample_post "first" nested_forest)
                            (LRaise connection_error)))
         (CallSearchPosts "learnpython" "langchain" 5 5 "relevance")
  = Raise (mkExc "AttributeError"
                 "'NoneType' object has no attribute 'status_code'" NoAttr).
Proof.
  apply (handler_raises_on_none_response
           (reddit_of (LYield (sample_post "first" nested_forest)
                              (LRaise connection_error)))
           (CallSearchPosts "learnpython" "langchain" 5 5 "relevance")
           connection_error).
  - eapply fails_iterating; [reflexivity|].
    simpl. apply raised_later; [lia | reflexivity |].
    apply raised_listing. lia.
  - reflexivity.
Defined.

Example listing_failure_becomes_error_record :
  exists details message,
    invoke (reddit_of (LYield (sample_post "first" nested_forest)
                              (LRaise rate_limited)))
           (CallTop "learnpython" 5 5 "week")
    = Ok [error_record details message] /\
    dict_get "error" details = Some (VStr "received 429 HTTP response") /\
    dict_get "error_type" details = Some (VStr "TooManyRequests").
Proof. eexists. eexists. split; [reflexivity|]. split; reflexivity. Qed.

Example opening_failure_at_limit_zero :
  exists details message,
    invoke (reddit_failing_to_open bad_time_filter)
           (CallTop "learnpython" 0 5 "bogus")
    = Ok [error_record details message] /\
    dict_get "error_type" details = Some (VStr "ValueError") /\
    dict_get "http_status" details = None.
Proof. eexists. eexists. split; [reflexivity|]. split; reflexivity. Qed.

Example listing_failure_after_limit :
  exists d,
    invoke (reddit_of (LYield (sample_post "first" nested_forest)
                              (LRaise rate_limited)))
           (CallTop "learnpython" 1 5 "week") = Ok [d] /\
    is_error_item d = false.
Proof. eexists. split; reflexivity. Qed.

Example comment_tree_failure :
  invoke (reddit_of
            (LYield (mkSubmission (Ok "t") (Ok "") (Ok "u") (Ok 1) (Ok 0)
                                  (Ok "/r/x/1") (Raise rate_limited))
                    LEnd))
         (CallSearchReddit "langchain" 5 5 "relevance")
  = Ok [error_record
          (expected_details (reddit_of LEnd)
                            (CallSearchReddit "langchain" 5 5 "relevance")
                            rate_limited)
          "Reddit search failed: received 429 HTTP response"].
Proof. reflexivity. Qed.

(** ** Limits and order *)

Lemma firstn_own_length {A : Type} (k : nat) (xs : list A) :
  firstn (length (firstn k xs)) xs = firstn k xs.
Proof.
  rewrite length_firstn. destruct (Nat.le_ge_cases k (length xs)) as [H|H].
  - now rewrite Nat.min_l.
  - rewrite Nat.min_r by exact H. now rewrite firstn_all, firstn_all2.
Qed.

Lemma collected_comments (comment_limit : Z) (post : Submission) (d : value) :
  Collected comment_limit post d ->
  exists forest,
    Praw.comments post = Ok forest /\
    get_item "comments" d
    = Some (VList (map VStr
                       (map body_text
                            (slice_to comment_limit
                                      (list_queue (replace_more forest)))))).
Proof. intros [t b u c n p forest _ _ _ _ _ _ Hf]. eauto. Qed.

(** C2. A successful call with non-negative limits returns at most [limit]
    records, one for each of the first posts of the listing, in order; the
    comments of each record are at most [comment_limit] and are a prefix of
    the flattened comment tree of its post, bodies in that order. *)
Theorem successful_fetch_respects_limits
        (reddit : Reddit) (c : Call) (result : list value) :
  invoke reddit c = Ok result ->
  existsb is_error_item result = false ->
  0 <= call_limit c ->
  0 <= call_comment_limit c ->
  Z.of_nat (length result) <= call_limit c /\
  exists listing posts,
    call_listing reddit c = Ok listing /\
    Yields listing posts /\
    Forall2
      (fun post d =>
         exists forest cs,
           Praw.comments post = Ok forest /\
           get_item "comments" d = Some (VList (map VStr cs)) /\
           Z.of_nat (length cs) <= call_comment_limit c /\
           cs = firstn (length cs)
                       (map body_text (list_queue (replace_more forest))))
      posts result.
Proof.
  intros Hinv Hok Hlimit Hcl.
  destruct (successful_fetch _ _ _ Hinv Hok) as (Hlen & listing & posts & Hopen & Hy & Hc).
  split; [lia|]. exists listing, posts. split; [exact Hopen|]. split; [exact Hy|].
  eapply Forall2_impl; [|exact Hc]. intros post d Hd.
  destruct (collected_comments _ _ _ Hd) as (forest & Hf & Hcs).
  exists forest. eexists. split; [exact Hf|]. split; [exact Hcs|].
  rewrite slice_to_nonneg by exact Hcl.
  rewrite <- firstn_map. split.
  - rewrite length_firstn. lia.
  - symmetry. apply firstn_own_length.
Qed.

Lemma successful_fetch_respects_limits_witness :
  let reddit := reddit_of (LYield (sample_post "first" nested_forest)
                                  (LYield (sample_post "second" []) LEnd)) in
  let c := CallSearchPosts "learnpython" "langchain" 1 1 "relevance" in
  let result :=
    [Fetch.model_dump
       (mkRedditPost "first" "" "https://example.org/a" 1700000000 2
                     "https://reddit.com/r/test/first" ["top"])] in
  invoke reddit c = Ok result /\
  Z.of_nat (length result) <= call_limit c /\
  exists listing posts,
    call_listing reddit c = Ok listing /\
    Yields listing posts /\
    Forall2
      (fun post d =>
         exists forest cs,
           Praw.comments post = Ok forest /\
           get_item "comments" d = Some (VList (map VStr cs)) /\
           Z.of_nat (length cs) <= call_comment_limit c /\
           cs = firstn (length cs)
                       (map body_text (list_queue (replace_more forest))))
      posts result.
Proof.
  intros reddit c result. split; [reflexivity|].
  apply (successful_fetch_respects_limits reddit c result);
    [reflexivity | reflexivity | simpl; lia | simpl; lia].
Defined.

Example negative_comment_limit_drops_from_the_end :
  exists d,
    invoke (reddit_of (LYield (sample_post "first" nested_forest) LEnd))
           (CallSearchReddit "langchain" 5 (-1) "relevance") = Ok [d] /\
    get_item "comments" d = Some (VList [VStr "top"]).
Proof. eexists. split; reflexivity. Qed.

(** ** Error records *)

(** C6, as amended. When a fetch fails, in the opening call or in the
    iteration, with an exception that has no [response] attribute or one
    that holds a response, the tool returns one error record. It carries
    the message and the class name of the exception, the subreddit names for
    the two tools that take them, the time filter for the top-posts tool,
    the two diagnostic booleans and, exactly when the exception holds a
    response, its status code, headers and the first 500 characters of its
    body. It has no other key: the search query is not recorded, and the
    record is the same whatever the query was. *)
Theorem error_record_contents (reddit : Reddit) (c : Call) (e : PyExc) :
  Fails reddit c e ->
  exc_response e <> AttrNone ->
  exists details message,
    invoke reddit c = Ok [error_record details message] /\
    dict_get "error" details = Some (VStr (exc_str e)) /\
    dict_get "error_type" details = Some (VStr (exc_type_name e)) /\
    (forall k v, In (k, v) (recorded_parameters c) ->
                 dict_get k details = Some v) /\
    dict_get "reddit_read_only" details = Some (VBool (read_only reddit)) /\
    dict_get "client_id_exists" details
    = Some (VBool (truthy (config_client_id reddit))) /\
    match exc_response e with
    | AttrResponse response =>
        dict_get "http_status" details = Some (VInt (status_code response)) /\
        dict_get "response_headers" details
        = Some (VDict (map (fun kv => (fst kv, VStr (snd kv)))
                           (headers response))) /\
        dict_get "response_body" details
        = Some (VStr (substring 0 500 (text response)))
    | _ =>
        dict_get "http_status" details = None /\
        dict_get "response_headers" details = None /\
        dict_get "response_body" details = None
    end /\
    map fst details
    = ["error"; "error_type"]%string ++ map fst (recorded_parameters c)
      ++ ["reddit_read_only"; "client_id_exists"]%string
      ++ map fst (response_details e) /\
    (forall query,
        invoke_except reddit (with_query query c) e
        = invoke_except reddit c e).
Proof.
  intros He Hne. exists (expected_details reddit c e), (failure_message c e).
  split; [now apply invoke_fails|].
  clear He. destruct e as [name msg [| |response]]; [|now elim Hne|];
    destruct c;
    cbn [expected_details recorded_parameters response_details exc_response
         exc_str exc_type_name app];
    (repeat split; try reflexivity);
    intros k v Hin; simpl in Hin;
    repeat (destruct Hin as [[= <- <-]|Hin]; [reflexivity|]);
    destruct Hin.
Qed.

Lemma error_record_contents_witness :
  exists details message,
    invoke (reddit_of (LRaise rate_limited))
           (CallTop "learnpython" 5 5 "week")
    = Ok [error_record details message] /\
    dict_get "http_status" details = Some (VInt 429) /\
    dict_get "error_type" details = Some (VStr "TooManyRequests") /\
    dict_get "time_filter" details = Some (VStr "week").
Proof.
  destruct (error_record_contents
              (reddit_of (LRaise rate_limited))
              (CallTop "learnpython" 5 5 "week") rate_limited)
    as (details & message & Hinv & _ & Htype & Hparams & _ & _ & Hresp & _).
  - eapply fails_iterating; [reflexivity|]. apply raised_listing. reflexivity.
  - discriminate.
  - exists details, message. split; [exact Hinv|].
    split; [apply Hresp|]. split; [exact Htype|].
    apply Hparams. simpl. auto.
Defined.

(** C6, as stated, fails: the error record of a failed subreddit search
    holds the subreddit names but not the search query. *)
Lemma error_record_omits_query :
  exists details message,
    invoke (reddit_of (LRaise rate_limited))
           (CallSearchPosts "learnpython" "langchain" 5 5 "relevance")
    = Ok [error_record details message] /\
    carries_str "learnpython" details = true /\
    ~ records_request_parameters
        (CallSearchPosts "learnpython" "langchain" 5 5 "relevance") details.
Proof.
  eexists. eexists. split; [reflexivity|]. split; [reflexivity|].
  intros [_ Hquery]. vm_compute in Hquery. discriminate.
Qed.

Example search_reddit_error_record :
  invoke (reddit_of (LRaise rate_limited))
         (CallSearchReddit "langchain" 5 5 "relevance")
  = Ok [VDict
          [("error_details",
            VDict [("error", VStr "received 429 HTTP response");
                   ("error_type", VStr "TooManyRequests");
                   ("reddit_read_only", VBool true);
                   ("client_id_exists", VBool true);
                   ("http_status", VInt 429);
                   ("response_headers", VDict [("retry-after", VStr "5")]);
                   ("response_body", VStr "Too Many Requests")]);
           ("message",
            VStr "Reddit search failed: received 429 HTTP response");
           ("debug_info",
            VStr "Check error_details for Reddit API response information")]].
Proof. reflexivity. Qed.

(** ** Which comments are returned *)




Example three_posts_in_upstream_order :
  invoke (reddit_of (LYield (sample_post "a" [])
                       (LYield (sample_post "b" [])
                          (LYield (sample_post "c" []) LEnd))))
         (CallSearchReddit "langchain" 3 5 "relevance")
  = Ok (map (fun name =>
               Fetch.model_dump
                 (mkRedditPost name "" "https://example.org/a" 1700000000 2
                               ("https://reddit.com/r/test/" ++ name) []))
            ["a"; "b"; "c"]%string).
Proof. reflexivity. Qed.

Example only_top_level_when_enough :
  exists d,
    invoke (reddit_of (LYield (sample_post "first" nested_forest) LEnd))
           (CallSearchReddit "langchain" 5 1 "relevance") = Ok [d] /\
    get_item "comments" d = Some (VList [VStr "top"]).
Proof. eexists. split; reflexivity. Qed.

End FetchProofs.

(* ===================================================================== *)
(** * Further properties of the token verifier *)
(* ===================================================================== *)

Module AuthExtras.

Import Auth Props.

Lemma verify_token_inv (self : SimpleTokenVerifier) (tok : string)
      (t : AccessToken) :
  verify_token self tok = Some t ->
  valid_token self = Some tok /\ tok <> "" /\
  t = mkAccessToken tok "single_user" ["reddit:read"; "notion:write"] None.
Proof.
  unfold verify_token. destruct self as [[s|]]; simpl; [|discriminate].
  destruct (String.eqb_spec s ""); simpl; [discriminate|].
  destruct (String.eqb_spec tok s); simpl; [|discriminate].
  intros [= <-]. subst. auto.
Qed.

(** X1. The empty token is never accepted, whatever the configured key, and
    a verifier accepts at most one token. *)
Theorem verify_token_rejects_empty_and_is_unique (self : SimpleTokenVerifier) :
  verify_token self "" = None /\
  (forall tok1 tok2 t1 t2,
      verify_token self tok1 = Some t1 ->
      verify_token self tok2 = Some t2 ->
      tok1 = tok2 /\ t1 = t2).
Proof.
  split.
  - destruct (verify_token self "") as [t|] eqn:H; [|reflexivity].
    apply verify_token_inv in H as (_ & Hne & _). now elim Hne.
  - intros tok1 tok2 t1 t2 H1 H2.
    apply verify_token_inv in H1 as (Hv1 & _ & ->).
    apply verify_token_inv in H2 as (Hv2 & _ & ->).
    assert (tok1 = tok2) by congruence. subst. auto.
Qed.

Lemma verify_token_rejects_empty_and_is_unique_witness :
  verify_token (mkVerifier (Some "")) "" = None /\
  verify_token (mkVerifier (Some "s3cret")) "s3cret" <> None.
Proof.
  split.
  - apply (verify_token_rejects_empty_and_is_unique (mkVerifier (Some ""))).
  - discriminate.
Defined.

(** X2. Every access token the verifier grants carries all the scopes the
    server requires, names the single user, and does not expire. *)
Theorem granted_token_has_required_scopes
        (self : SimpleTokenVerifier) (tok : string) (t : AccessToken) :
  verify_token self tok = Some t ->
  (forall scope, In scope required_scopes -> In scope (scopes t)) /\
  client_id t = "single_user" /\
  expires_at t = None /\
  token t = tok.
Proof.
  intros H. apply verify_token_inv in H as (_ & _ & ->).
  split; [intros scope Hin; exact Hin | auto].
Qed.

Lemma granted_token_has_required_scopes_witness :
  exists t,
    verify_token (mkVerifier (Some "s3cret")) "s3cret" = Some t /\
    (forall scope, In scope required_scopes -> In scope (scopes t)) /\
    client_id t = "single_user" /\ expires_at t = None /\
    token t = "s3cret".
Proof.
  eexists. split; [reflexivity|].
  apply (granted_token_has_required_scopes
           (mkVerifier (Some "s3cret")) "s3cret"). reflexivity.
Defined.

(** X3. The constructor logs its warning exactly when the verifier it
    builds rejects every token. *)
Theorem init_warns_iff_nothing_is_accepted (getenv : string -> option string) :
  snd (SimpleTokenVerifier_init getenv) <> [] <->
  (forall tok, verify_token (fst (SimpleTokenVerifier_init getenv)) tok = None).
Proof.
  unfold SimpleTokenVerifier_init, verify_token. simpl.
  destruct (getenv "MCP_API_KEY") as [s|]; simpl.
  - destruct (String.eqb_spec s ""); simpl.
    + split; [reflexivity | discriminate].
    + split; [intros H; now elim H|].
      intros H. specialize (H s). rewrite String.eqb_refl in H. discriminate.
  - split; [reflexivity | discriminate].
Qed.

Example init_with_key :
  SimpleTokenVerifier_init
    (fun name => dict_get name [("MCP_API_KEY", "s3cret")])
  = (mkVerifier (Some "s3cret"), []).
Proof. reflexivity. Qed.

Example init_without_key :
  SimpleTokenVerifier_init (fun _ => None)
  = (mkVerifier None,
     ["⚠️  MCP_API_KEY not set - authentication will fail"]).
Proof. reflexivity. Qed.

End AuthExtras.

(* ===================================================================== *)
(** * Further properties of the Notion page writer *)
(* ===================================================================== *)

Module NotionExtras.

Import Notion Props.

Lemma truthy_py_or (a b : option string) :
  truthy (py_or a b) = truthy a || truthy b.
Proof. unfold py_or. destruct (truthy a) eqn:Ha; simpl; auto. Qed.

Lemma truthy_some (x : option string) :
  truthy x = true -> exists s, x = Some s /\ s <> "".
Proof. apply AuthProofs.truthy_spec. Qed.

(** The requests of a call: the page request when both values are
    configured, nothing otherwise. *)
Lemma save_requests (w : World) (question answer search_query : string)
      (reddit_sources : list (list (string * string))) :
  snd (save_reddit_qa_to_notion w question answer search_query reddit_sources)
  = if truthy (database_id w) && truthy (api_token w)
    then [page_request w question answer search_query reddit_sources]
    else [].
Proof.
  destruct (NotionProofs.save_outcome w question answer search_query
                                      reddit_sources)
    as [Hdb | Hdb Htok | r Hdb Htok _ _ | r Hdb Htok _ _ | e Hdb Htok _];
    rewrite Hdb; try rewrite Htok; reflexivity.
Qed.

(** X4. A call issues exactly one request when a database identifier (under
    either name) and the token are set to non-empty values, and none
    otherwise; it never issues a second one, whatever the answer of the
    network. *)
Theorem requests_issued (w : World) (question answer search_query : string)
        (reddit_sources : list (list (string * string))) :
  snd (save_reddit_qa_to_notion w question answer search_query reddit_sources)
  = if (truthy (getenv w "NOTION_QA_DATABASE_ID")
        || truthy (getenv w "NOTION_DATABASE_ID"))
       && truthy (getenv w "NOTION_API_TOKEN")
    then [page_request w question answer search_query reddit_sources]
    else [].
Proof.
  rewrite save_requests. unfold database_id, api_token.
  now rewrite truthy_py_or.
Qed.

Example one_request_even_when_refused :
  length (snd (save_reddit_qa_to_notion
                 (world_of both_configured (Ok (mkResponse 500 [] "oops")))
                 "q" "a" "s" [])) = 1%nat.
Proof. reflexivity. Qed.

Lemma issued_request (w : World) (question answer search_query : string)
      (reddit_sources : list (list (string * string))) (req : Request) :
  In req (snd (save_reddit_qa_to_notion w question answer search_query
                                        reddit_sources)) ->
  truthy (database_id w) = true /\ truthy (api_token w) = true /\
  req = page_request w question answer search_query reddit_sources.
Proof.
  rewrite save_requests.
  destruct (truthy (database_id w)), (truthy (api_token w)); simpl;
    try contradiction.
  intros [<-|[]]. auto.
Qed.

(** X5. Every request the tool issues goes to the Notion pages endpoint,
    carries the configured, non-empty token as a bearer token together with
    the content type and the API version, and names as parent a non-empty
    database identifier taken from one of the two database variables. *)
Theorem request_is_addressed_and_authorised
        (w : World) (question answer search_query : string)
        (reddit_sources : list (list (string * string))) (req : Request) :
  In req (snd (save_reddit_qa_to_notion w question answer search_query
                                        reddit_sources)) ->
  req_url req = "https://api.notion.com/v1/pages" /\
  exists tok db,
    getenv w "NOTION_API_TOKEN" = Some tok /\ tok <> "" /\
    req_headers req = [("Authorization", "Bearer " ++ tok);
                       ("Content-Type", "application/json");
                       ("Notion-Version", "2022-06-28")] /\
    parent_database (req_json req) = Some (VStr db) /\ db <> "" /\
    (getenv w "NOTION_QA_DATABASE_ID" = Some db \/
     getenv w "NOTION_DATABASE_ID" = Some db).
Proof.
  intros Hin. apply issued_request in Hin as (Hdb & Htok & ->).
  split; [reflexivity|].
  destruct (truthy_some _ Htok) as (tok & Htok' & Hne).
  destruct (truthy_some _ Hdb) as (db & Hdb' & Hdne).
  exists tok, db. unfold api_token in Htok'.
  split; [exact Htok'|]. split; [exact Hne|]. split.
  - unfold page_request, request_headers, api_token. simpl.
    now rewrite Htok'.
  - split; [|split; [exact Hdne|]].
    + unfold page_request, parent_database. simpl. now rewrite Hdb'.
    + unfold database_id, py_or in Hdb'.
      destruct (truthy (getenv w "NOTION_QA_DATABASE_ID")); auto.
Qed.

Lemma request_is_addressed_and_authorised_witness :
  let w := world_of both_configured (Ok (mkResponse 200 [] "{}")) in
  let req := page_request w "q" "a" "s" [] in
  snd (save_reddit_qa_to_notion w "q" "a" "s" []) = [req] /\
  req_url req = "https://api.notion.com/v1/pages" /\
  exists tok,
    getenv w "NOTION_API_TOKEN" = Some tok /\
    req_headers req = [("Authorization", "Bearer " ++ tok);
                       ("Content-Type", "application/json");
                       ("Notion-Version", "2022-06-28")].
Proof.
  intros w req. split; [reflexivity|].
  destruct (request_is_addressed_and_authorised w "q" "a" "s" [] req)
    as (Hurl & tok & db & Htok & _ & Hh & _).
  - left. reflexivity.
  - split; [exact Hurl|]. exists tok. split; assumption.
Defined.

(** X6. The posted page has the five properties Question, Answer, Search
    Query, Reddit Sources and Created; it holds the question in full,
    whatever its length, the answer, the search query, and the time of the
    call as its creation date. *)
Theorem page_holds_the_session
        (w : World) (question answer search_query : string)
        (reddit_sources : list (list (string * string))) (req : Request) :
  In req (snd (save_reddit_qa_to_notion w question answer search_query
                                        reddit_sources)) ->
  property_names (req_json req)
  = ["Question"; "Answer"; "Search Query"; "Reddit Sources"; "Created"] /\
  title_content "Question" (req_json req) = Some (VStr question) /\
  rich_text_content "Answer" (req_json req) = Some (VStr answer) /\
  rich_text_content "Search Query" (req_json req) = Some (VStr search_query) /\
  date_start "Created" (req_json req) = Some (VStr (now_isoformat w)).
Proof.
  intros Hin. apply issued_request in Hin as (_ & _ & ->).
  repeat split.
Qed.

Lemma page_holds_the_session_witness :
  exists req,
    snd (save_reddit_qa_to_notion
           (world_of both_configured (Ok (mkResponse 200 [] "{}")))
           long_question "a" "s" []) = [req] /\
    title_content "Question" (req_json req) = Some (VStr long_question).
Proof.
  eexists. split; [reflexivity|].
  apply (page_holds_the_session
           (world_of both_configured (Ok (mkResponse 200 [] "{}")))
           long_question "a" "s" []).
  left. reflexivity.
Defined.

(** X7. On success the question field of the result has the length of the
    question when that is at most 50, and 53 otherwise; it is never longer
    than 53 characters. *)
Theorem echoed_question_length
        (w : World) (question answer search_query : string)
        (reddit_sources : list (list (string * string))) (v : value) :
  fst (save_reddit_qa_to_notion w question answer search_query reddit_sources)
  = Ok v ->
  is_success v ->
  exists s,
    get_item "question" v = Some (VStr s) /\
    String.length s
    = (if (String.length question <=? 50)%nat
       then String.length question else 53)%nat /\
    (String.length s <= 53)%nat.
Proof.
  intros Hv Hs.
  rewrite (NotionProofs.success_is_success_result _ _ _ _ _ _ Hv Hs).
  unfold success_result, get_item. simpl. eexists. split; [reflexivity|].
  unfold len.
  destruct (Z.ltb_spec 50 (Z.of_nat (String.length question))) as [Hl|Hl];
    destruct (Nat.leb_spec (String.length question) 50) as [Hn|Hn]; try lia.
  destruct (NotionProofs.substring_prefix 50 question) as (rest & _ & H50);
    [lia|].
  rewrite NotionProofs.length_append.
  change (str_slice_to 50 question) with (substring 0 50 question).
  rewrite H50. simpl. lia.
Qed.

Lemma echoed_question_length_witness :
  exists s,
    get_item "question" (success_result long_question) = Some (VStr s) /\
    String.length s = 53%nat.
Proof.
  destruct (echoed_question_length
              (world_of both_configured (Ok (mkResponse 200 [] "{}")))
              long_question "a" "s" [] (success_result long_question))
    as (s & Hs & Hlen & _); [reflexivity | reflexivity |].
  exists s. split; [exact Hs | exact Hlen].
Defined.

(** The loop continues the text it is given. *)
Lemma sources_loop_acc (reddit_sources : list (list (string * string))) :
  forall i sources_text,
    sources_loop i reddit_sources sources_text
    = sources_text ++ sources_loop i reddit_sources "".
Proof.
  induction reddit_sources as [|source rest IH]; intros i sources_text.
  - simpl. now rewrite NotionProofs.append_nil_r.
  - cbn [sources_loop]. rewrite IH. rewrite (IH _ ("" ++ _)).
    cbn [append]. now rewrite NotionProofs.append_assoc.
Qed.

Lemma sources_loop_app (xs ys : list (list (string * string))) :
  forall i sources_text,
    sources_loop i (xs ++ ys)%list sources_text
    = sources_loop (i + Z.of_nat (length xs)) ys
                   (sources_loop i xs sources_text).
Proof.
  induction xs as [|x xs IH]; intros i sources_text.
  - simpl. now rewrite Z.add_0_r.
  - cbn [app sources_loop length]. rewrite IH. f_equal. lia.
Qed.

(** X8. Rendering is incremental: the text of a list of sources followed by
    more sources is the text of the first list followed by the lines of the
    others, numbered on from where the first list stopped. The text is empty
    exactly when there is no source. *)
Theorem sources_text_is_incremental (xs ys : list (list (string * string))) :
  sources_loop 1 (xs ++ ys)%list ""
  = sources_loop 1 xs "" ++ sources_loop (1 + Z.of_nat (length xs)) ys "" /\
  (sources_loop 1 xs "" = "" <-> xs = []).
Proof.
  split.
  - rewrite sources_loop_app. apply sources_loop_acc.
  - split.
    + destruct xs as [|x xs]; [reflexivity|].
      cbn [sources_loop]. rewrite sources_loop_acc. discriminate.
    + intros ->. reflexivity.
Qed.

Example third_source_is_numbered_3 :
  sources_loop 1 ([[("title", "A")]; [("url", "u")]] ++ [[("title", "C")]]) ""
  = sources_loop 1 [[("title", "A")]; [("url", "u")]] ""
    ++ "3. [C](#)" ++ newline.
Proof. reflexivity. Qed.

End NotionExtras.

(* ===================================================================== *)
(** * Further properties of the Reddit fetch tools *)
(* ===================================================================== *)

Module FetchExtras.

Import Praw Fetch Props.

Local Open Scope list_scope.

Lemma collected_is_post_record (comment_limit : Z) (post : Submission)
      (d : value) :
  Collected comment_limit post d ->
  keys_of d = post_keys /\ is_error_item d = false.
Proof. intros []. split; reflexivity. Qed.

Lemma collected_all_post_records (comment_limit : Z)
      (posts : list Submission) (ds : list value) :
  Forall2 (Collected comment_limit) posts ds ->
  Forall (fun d => keys_of d = post_keys) ds /\
  existsb is_error_item ds = false.
Proof.
  induction 1 as [|post d posts ds Hd _ [IH1 IH2]]; [split; constructor|].
  destruct (collected_is_post_record _ _ _ Hd) as [Hk He].
  split; [constructor; assumption|]. simpl. now rewrite He, IH2.
Qed.

(** X9. A fetch tool either returns a list of post records, each with
    exactly the seven keys of [RedditPost] and none with the key
    [error_details], or returns a list of exactly one error record with the
    keys [error_details], [message] and [debug_info], or raises the
    AttributeError of its handler; it raises nothing else. *)
Theorem result_is_posts_or_one_error (reddit : Reddit) (c : Call) :
  (exists result,
      invoke reddit c = Ok result /\
      ((Forall (fun d => keys_of d = post_keys) result /\
        existsb is_error_item result = false) \/
       (exists d, result = [d] /\ is_error_item d = true /\
                  keys_of d
                  = ["error_details"; "message"; "debug_info"]%string))) \/
  invoke reddit c = Raise (none_has_no_attribute "status_code").
Proof.
  rewrite FetchProofs.invoke_eq.
  destruct (invoke_try reddit c) as [posts|e] eqn:Htry; simpl.
  - left. exists posts. split; [reflexivity|]. left.
    rewrite FetchProofs.invoke_try_eq in Htry.
    destruct (call_listing reddit c) as [listing|e]; [|discriminate].
    simpl in Htry.
    apply FetchProofs.for_posts_ok in Htry as (taken & ds & -> & _ & Hc & _).
    simpl. eapply collected_all_post_records, Hc.
  - destruct e as [name msg [| |response]].
    + left. rewrite FetchProofs.invoke_except_eq by discriminate.
      eexists. split; [reflexivity|].
      right. eexists. split; [reflexivity|]. split; reflexivity.
    + right. now apply FetchProofs.invoke_except_none.
    + left. rewrite FetchProofs.invoke_except_eq by discriminate.
      eexists. split; [reflexivity|].
      right. eexists. split; [reflexivity|]. split; reflexivity.
Qed.

(** X10. In a successful result the record of each post holds the values
    read from the post: title, selftext as body, url, creation time and
    comment count unchanged, and the permalink prefixed with
    [https://reddit.com]. *)
Theorem records_copy_the_posts
        (reddit : Reddit) (c : Call) (result : list value) :
  invoke reddit c = Ok result ->
  existsb is_error_item result = false ->
  exists listing posts,
    call_listing reddit c = Ok listing /\
    Yields listing posts /\
    Forall2
      (fun post d =>
         exists t b u created n p,
           Praw.title post = Ok t /\ Praw.selftext post = Ok b /\
           Praw.url post = Ok u /\ Praw.created_utc post = Ok created /\
           Praw.num_comments post = Ok n /\ Praw.permalink post = Ok p /\
           get_item "title" d = Some (VStr t) /\
           get_item "body" d = Some (VStr b) /\
           get_item "url" d = Some (VStr u) /\
           get_item "created_utc" d = Some (VInt created) /\
           get_item "num_comments" d = Some (VInt n) /\
           get_item "permalink" d
           = Some (VStr ("https://reddit.com" ++ p)%string))
      posts result.
Proof.
  intros Hinv Hok.
  destruct (FetchProofs.successful_fetch _ _ _ Hinv Hok)
    as (_ & listing & posts & Hopen & Hy & Hc).
  exists listing, posts. split; [exact Hopen|]. split; [exact Hy|].
  eapply Forall2_impl; [|exact Hc].
  intros post d [t b u created n p forest Ht Hb Hu Hcr Hn Hp _].
  exists t, b, u, created, n, p. repeat split; assumption.
Qed.

Lemma records_copy_the_posts_witness :
  let reddit := reddit_of (LYield (sample_post "first" []) LEnd) in
  let c := CallTop "learnpython" 5 5 "week" in
  let result :=
    [Fetch.model_dump
       (mkRedditPost "first" "" "https://example.org/a" 1700000000 2
                     "https://reddit.com/r/test/first" [])] in
  invoke reddit c = Ok result /\
  exists listing posts,
    call_listing reddit c = Ok listing /\
    Yields listing posts /\
    Forall2
      (fun post d =>
         exists t b u created n p,
           Praw.title post = Ok t /\ Praw.selftext post = Ok b /\
           Praw.url post = Ok u /\ Praw.created_utc post = Ok created /\
           Praw.num_comments post = Ok n /\ Praw.permalink post = Ok p /\
           get_item "title" d = Some (VStr t) /\
           get_item "body" d = Some (VStr b) /\
           get_item "url" d = Some (VStr u) /\
           get_item "created_utc" d = Some (VInt created) /\
           get_item "num_comments" d = Some (VInt n) /\
           get_item "permalink" d
           = Some (VStr ("https://reddit.com" ++ p)%string))
      posts result.
Proof.
  intros reddit c result. split; [reflexivity|].
  apply (records_copy_the_posts reddit c result); reflexivity.
Defined.

(** The length of a slice [xs[:n]]. *)
Lemma slice_to_length {A : Type} (n : Z) (xs : list A) :
  Z.of_nat (length (slice_to n xs))
  = if 0 <=? n then Z.min n (Z.of_nat (length xs))
    else Z.max 0 (Z.of_nat (length xs) + n).
Proof.
  unfold slice_to. destruct (Z.leb_spec 0 n); rewrite length_firstn; lia.
Qed.

(** X11. In a successful result the number of comments of a record is the
    comment limit or the number of comments of the flattened tree,
    whichever is smaller, when the limit is not negative; a negative limit
    [-k] leaves out the last [k] comments of the flattened tree instead. *)
Theorem comment_count
        (reddit : Reddit) (c : Call) (result : list value) :
  invoke reddit c = Ok result ->
  existsb is_error_item result = false ->
  exists listing posts,
    call_listing reddit c = Ok listing /\
    Yields listing posts /\
    Forall2
      (fun post d =>
         exists forest cs,
           Praw.comments post = Ok forest /\
           get_item "comments" d = Some (VList (map VStr cs)) /\
           let n := Z.of_nat (length (list_queue (replace_more forest))) in
           Z.of_nat (length cs)
           = if 0 <=? call_comment_limit c
             then Z.min (call_comment_limit c) n
             else Z.max 0 (n + call_comment_limit c))
      posts result.
Proof.
  intros Hinv Hok.
  destruct (FetchProofs.successful_fetch _ _ _ Hinv Hok)
    as (_ & listing & posts & Hopen & Hy & Hc).
  exists listing, posts. split; [exact Hopen|]. split; [exact Hy|].
  eapply Forall2_impl; [|exact Hc]. intros post d Hd.
  destruct (FetchProofs.collected_comments _ _ _ Hd) as (forest & Hf & Hcs).
  exists forest. eexists. split; [exact Hf|]. split; [exact Hcs|].
  cbv zeta. rewrite length_map. apply slice_to_length.
Qed.

Lemma comment_count_witness :
  let reddit := reddit_of (LYield (sample_post "first" nested_forest) LEnd) in
  let c := CallSearchReddit "langchain" 5 (-1) "relevance" in
  let result :=
    [Fetch.model_dump
       (mkRedditPost "first" "" "https://example.org/a" 1700000000 2
                     "https://reddit.com/r/test/first" ["top"%string])] in
  invoke reddit c = Ok result /\
  exists listing posts,
    call_listing reddit c = Ok listing /\
    Yields listing posts /\
    Forall2
      (fun post d =>
         exists forest cs,
           Praw.comments post = Ok forest /\
           get_item "comments" d = Some (VList (map VStr cs)) /\
           let n := Z.of_nat (length (list_queue (replace_more forest))) in
           Z.of_nat (length cs)
           = if 0 <=? call_comment_limit c
             then Z.min (call_comment_limit c) n
             else Z.max 0 (n + call_comment_limit c))
      posts result.
Proof.
  intros reddit c result. split; [reflexivity|].
  apply (comment_count reddit c result); reflexivity.
Defined.

Lemma substring_is_bounded_prefix (n : nat) (s : string) :
  exists rest,
    s = (substring 0 n s ++ rest)%string /\
    String.length (substring 0 n s) = Nat.min n (String.length s).
Proof.
  revert s. induction n as [|n IH]; intros s.
  - exists s. destruct s; auto.
  - destruct s as [|ch s]; [exists ""%string; auto|].
    destruct (IH s) as (rest & Heq & Hlen).
    exists rest. simpl. split; [now rewrite <- Heq | now rewrite Hlen].
Qed.

(** X12. When a fetch fails with an exception that has a response, the
    [response_body] of the error record is the beginning of the response
    text, whole when the text has at most 500 characters and cut to 500
    otherwise. *)
Theorem response_body_is_a_bounded_prefix
        (reddit : Reddit) (c : Call) (e : PyExc) (response : Response) :
  Fails reddit c e ->
  exc_response e = AttrResponse response ->
  exists details message body rest,
    invoke reddit c = Ok [error_record details message] /\
    dict_get "response_body" details = Some (VStr body) /\
    text response = (body ++ rest)%string /\
    String.length body = Nat.min 500 (String.length (text response)).
Proof.
  intros He Hr.
  destruct (substring_is_bounded_prefix 500 (text response))
    as (rest & Heq & Hlen).
  exists (expected_details reddit c e), (failure_message c e),
         (substring 0 500 (text response)), rest.
  split; [apply FetchProofs.invoke_fails; [exact He | congruence]|].
  split; [|split; assumption].
  clear He. destruct e as [name msg r]. simpl in Hr. subst r.
  destruct c; reflexivity.
Qed.

Lemma response_body_is_a_bounded_prefix_witness :
  exists details message body rest,
    invoke (reddit_of (LRaise rate_limited))
           (CallTop "learnpython" 5 5 "week")
    = Ok [error_record details message] /\
    dict_get "response_body" details = Some (VStr body) /\
    "Too Many Requests"%string = (body ++ rest)%string /\
    String.length body = 17%nat.
Proof.
  apply (response_body_is_a_bounded_prefix
           (reddit_of (LRaise rate_limited))
           (CallTop "learnpython" 5 5 "week") rate_limited
           (mkResponse 429 [("retry-after", "5")] "Too Many Requests")%string).
  - eapply fails_iterating; [reflexivity|]. apply raised_listing. reflexivity.
  - reflexivity.
Defined.

(** X13. The site-wide search is the subreddit search on [all]: both
    return the same post records when the search succeeds; when it fails
    both return one error record, with the same details except that only
    the subreddit search records the subreddit name, or both raise the same
    AttributeError from their handlers. *)
Theorem search_reddit_is_search_posts_on_all
        (reddit : Reddit) (query : string) (limit comment_limit : Z)
        (sort : string) :
  (exists ra rb,
      search_reddit reddit query limit comment_limit sort = Ok ra /\
      search_posts reddit "all" query limit comment_limit sort = Ok rb /\
      ((existsb is_error_item ra = false /\ rb = ra) \/
       (exists da db ma mb,
           ra = [error_record da ma] /\ rb = [error_record db mb] /\
           dict_get "subreddits" da = None /\
           dict_get "subreddits" db = Some (VStr "all") /\
           (forall k, k <> "subreddits"%string ->
                      dict_get k db = dict_get k da)))) \/
  (search_reddit reddit query limit comment_limit sort
   = Raise (none_has_no_attribute "status_code") /\
   search_posts reddit "all" query limit comment_limit sort
   = Raise (none_has_no_attribute "status_code")).
Proof.
  unfold search_reddit, search_posts.
  change (search_posts_try reddit "all" query limit comment_limit sort)
    with (search_reddit_try reddit query limit comment_limit sort).
  destruct (search_reddit_try reddit query limit comment_limit sort)
    as [posts|e] eqn:Htry; simpl.
  - left. exists posts, posts. repeat split. left. split; [|reflexivity].
    unfold search_reddit_try in Htry.
    destruct (subreddit_search reddit "all" query sort) as [listing|e];
      [|discriminate].
    simpl in Htry.
    apply FetchProofs.for_posts_ok in Htry as (taken & ds & -> & _ & Hc & _).
    simpl. eapply collected_all_post_records, Hc.
  - unfold search_reddit_except, search_posts_except, http_details.
    destruct (exc_response e) as [| |response]; simpl.
    + left. eexists. eexists. split; [reflexivity|]. split; [reflexivity|].
      right. eexists. eexists. eexists. eexists.
      split; [reflexivity|]. split; [reflexivity|].
      split; [reflexivity|]. split; [reflexivity|].
      intros k Hk. simpl. destruct (String.eqb_spec k "subreddits");
        [contradiction | reflexivity].
    + right. split; reflexivity.
    + left. eexists. eexists. split; [reflexivity|]. split; [reflexivity|].
      right. eexists. eexists. eexists. eexists.
      split; [reflexivity|]. split; [reflexivity|].
      split; [reflexivity|]. split; [reflexivity|].
      intros k Hk. simpl. destruct (String.eqb_spec k "subreddits");
        [contradiction | reflexivity].
Qed.

Lemma with_comment_limit_same (reddit : Reddit) (c : Call)
      (comment_limit : Z) (e : PyExc) :
  call_limit (with_comment_limit comment_limit c) = call_limit c /\
  call_listing reddit (with_comment_limit comment_limit c)
  = call_listing reddit c /\
  call_comment_limit (with_comment_limit comment_limit c) = comment_limit /\
  invoke_except reddit (with_comment_limit comment_limit c) e
  = invoke_except reddit c e.
Proof. destruct c; repeat split. Qed.

(** Two runs of the loop over one listing that both return have appended
    the same number of records. *)
Lemma for_posts_same_count (limit cl1 cl2 : Z) (listing : Listing) :
  forall yielded acc1 acc2 res1 res2,
    for_posts limit yielded listing cl1 acc1 = Ok res1 ->
    for_posts limit yielded listing cl2 acc2 = Ok res2 ->
    exists k, length res1 = (length acc1 + k)%nat /\
              length res2 = (length acc2 + k)%nat.
Proof.
  induction listing as [|post rest IH|e0];
    intros yielded acc1 acc2 res1 res2; cbn [for_posts];
    destruct (limit <=? yielded);
    try (intros [= <-] [= <-]; exists 0%nat; split; lia);
    try discriminate.
  destruct (collect_post cl1 post) as [d1|]; [|discriminate].
  destruct (collect_post cl2 post) as [d2|]; [|discriminate].
  cbn [bind]. intros H1 H2.
  destruct (IH _ _ _ _ _ H1 H2) as (k & Hk1 & Hk2).
  rewrite length_app in Hk1, Hk2. simpl in Hk1, Hk2.
  exists (S k). split; lia.
Qed.

(** X14. The comment limit changes neither whether a call fails nor how
    many records it returns: under any other comment limit a call that
    returns an error record returns the same one, a call that returns post
    records returns as many, and a call that raises raises the same
    exception. *)
Theorem comment_limit_does_not_change_the_outcome
        (reddit : Reddit) (c : Call) (comment_limit : Z) :
  (exists r r',
      invoke reddit c = Ok r /\
      invoke reddit (with_comment_limit comment_limit c) = Ok r' /\
      length r = length r' /\
      existsb is_error_item r = existsb is_error_item r' /\
      (existsb is_error_item r = true -> r' = r)) \/
  (exists e,
      invoke reddit c = Raise e /\
      invoke reddit (with_comment_limit comment_limit c) = Raise e).
Proof.
  destruct (with_comment_limit_same reddit c comment_limit
                                    (mkExc "" "" NoAttr))
    as (Hl & Hli & Hcl & _).
  rewrite !FetchProofs.invoke_eq, !FetchProofs.invoke_try_eq, Hl, Hli, Hcl.
  assert (Hsame : forall e,
             invoke_except reddit (with_comment_limit comment_limit c) e
             = invoke_except reddit c e).
  { intros e. apply (with_comment_limit_same reddit c comment_limit e). }
  assert (Hhandler : forall e,
             (exists r, invoke_except reddit c e = Ok r /\
                        existsb is_error_item r = true) \/
             (exists e', invoke_except reddit c e = Raise e')).
  { intros [name msg [| |response]].
    - left. rewrite FetchProofs.invoke_except_eq by discriminate. eauto.
    - right. rewrite FetchProofs.invoke_except_none by reflexivity. eauto.
    - left. rewrite FetchProofs.invoke_except_eq by discriminate. eauto. }
  destruct (call_listing reddit c) as [listing|e0]; simpl.
  2: { rewrite Hsame. destruct (Hhandler e0) as [(r & -> & Hr)|(e' & ->)].
       - left. exists r, r. repeat split.
       - right. eauto. }
  destruct (for_posts (call_limit c) 0 listing (call_comment_limit c) [])
    as [r|e] eqn:H1;
    destruct (for_posts (call_limit c) 0 listing comment_limit [])
      as [r'|e'] eqn:H2; simpl.
  - left. exists r, r'. repeat split.
    + destruct (for_posts_same_count _ _ _ _ _ _ _ _ _ H1 H2) as (k & -> & ->).
      reflexivity.
    + apply FetchProofs.for_posts_ok in H1 as (? & ? & -> & _ & Hc1 & _).
      apply FetchProofs.for_posts_ok in H2 as (? & ? & -> & _ & Hc2 & _).
      simpl. apply collected_all_post_records in Hc1 as [_ ->].
      apply collected_all_post_records in Hc2 as [_ ->]. reflexivity.
    + apply FetchProofs.for_posts_ok in H1 as (? & ? & -> & _ & Hc1 & _).
      simpl. apply collected_all_post_records in Hc1 as [_ ->]. discriminate.
  - apply FetchProofs.for_posts_raised in H2.
    apply (FetchProofs.for_posts_raised _ (call_comment_limit c) _ _ [])
      in H2. congruence.
  - apply FetchProofs.for_posts_raised in H1.
    apply (FetchProofs.for_posts_raised _ comment_limit _ _ []) in H1.
    congruence.
  - apply FetchProofs.for_posts_raised in H1.
    apply (FetchProofs.for_posts_raised _ comment_limit _ _ []) in H1.
    assert (e' = e) by congruence. subst e'.
    rewrite Hsame. destruct (Hhandler e) as [(r & -> & Hr)|(e' & ->)].
    + left. exists r, r. repeat split.
    + right. eauto.
Qed.

Example failure_is_the_same_under_any_comment_limit :
  invoke (reddit_of (LYield (sample_post "first" nested_forest)
                            (LRaise rate_limited)))
         (CallTop "learnpython" 5 0 "week")
  = invoke (reddit_of (LYield (sample_post "first" nested_forest)
                              (LRaise rate_limited)))
           (CallTop "learnpython" 5 (-3) "week").
Proof. reflexivity. Qed.




Example nonpositive_limit_reads_nothing :
  invoke (reddit_of (LRaise rate_limited))
         (CallSearchReddit "langchain" 0 5 "relevance") = Ok [].
Proof. reflexivity. Qed.

Example nonpositive_limit_still_opens_the_listing :
  exists d,
    invoke (reddit_failing_to_open bad_time_filter)
           (CallTop "learnpython" 0 5 "bogus") = Ok [d] /\
    is_error_item d = true.
Proof. eexists. split; reflexivity. Qed.

End FetchExtras.
